(** * FireCrawl MCP server: rate limiter, validators and tool dispatcher

    Shallow embedding of the two variants of the FireCrawl server kept in the
    repository:

    - [IndexTs]  : [src/fire-crawl/index.ts] (tools scrape, map, crawl; one
                   shared [lastReset] timestamp; handlers throw and the
                   dispatcher catches);
    - [Part000]  : the earlier variant (tools scrape, batch; one timestamp per
                   window; every branch returns its own error result).

    Time stamps and counters are JavaScript numbers holding integers and are
    modelled in [Z].  Strings are sequences of code units below 256. *)

From Stdlib Require Import ZArith List String Ascii Bool Lia DecimalString.
Import ListNotations.

Set Warnings "-register-all".

Open Scope string_scope.
Open Scope Z_scope.

(* ================================================================== *)
(** ** JavaScript values and the built-ins the server uses *)
(* ================================================================== *)

Module Js.

(** An untyped value: what an argument bag of type [unknown] or a parsed
    body of type [any] can be.  Of a number the code only observes its type
    and its truthiness, so an integer stands for it. *)
Inductive value : Type :=
| JUndefined
| JNull
| JBool (b : bool)
| JNum (n : Z)
| JStr (s : string)
| JArr (items : list value)
| JObj (fields : list (string * value)).

(** [!!v] *)
Definition truthy (v : value) : bool :=
  match v with
  | JUndefined | JNull => false
  | JBool b => b
  | JNum n => negb (n =? 0)
  | JStr s => negb (s =? "")%string
  | JArr _ | JObj _ => true
  end.

(** [typeof v] *)
Definition typeof (v : value) : string :=
  match v with
  | JUndefined => "undefined"
  | JNull | JArr _ | JObj _ => "object"
  | JBool _ => "boolean"
  | JNum _ => "number"
  | JStr _ => "string"
  end.

(** Own property of an object literal, first binding of the key. *)
Fixpoint lookup (key : string) (fields : list (string * value)) : option value :=
  match fields with
  | [] => None
  | (k, v) :: rest => if (k =? key)%string then Some v else lookup key rest
  end.

(** [key in v], for a [v] whose [typeof] is "object" and which is not null,
    and for the keys the validators ask for ("url", "urls"): neither
    [Object.prototype] nor [Array.prototype] has them, and an array's own
    keys are its indices and "length". *)
Definition has_property (key : string) (v : value) : bool :=
  match v with
  | JObj fields => match lookup key fields with Some _ => true | None => false end
  | _ => false
  end.

(** [v.key] for the keys the handlers read ("url", "urls", "options",
    "parsePDF", "waitForSelector", "javascript", "timeout", "markdown"), none
    of which is inherited, on a [v] that is neither [null] nor [undefined];
    a missing property reads as [undefined]. *)
Definition get (key : string) (v : value) : value :=
  match v with
  | JObj fields => match lookup key fields with Some x => x | None => JUndefined end
  | _ => JUndefined
  end.

(** [v === null] *)
Definition is_null (v : value) : bool :=
  match v with JNull => true | _ => false end.

(** [Array.isArray(v)] *)
Definition isArray (v : value) : bool :=
  match v with JArr _ => true | _ => false end.

(** White space and line terminators of ECMAScript among the code units
    below 256: TAB, LF, VT, FF, CR, SP and NBSP. *)
Definition is_white_space (c : ascii) : bool :=
  let n := N_of_ascii c in
  ((9 <=? n) && (n <=? 13) || (n =? 32) || (n =? 160))%N.

Fixpoint trimStart (s : string) : string :=
  match s with
  | EmptyString => EmptyString
  | String c rest => if is_white_space c then trimStart rest else s
  end.

Fixpoint trimEnd (s : string) : string :=
  match s with
  | EmptyString => EmptyString
  | String c rest =>
      let r := trimEnd rest in
      if is_white_space c && (r =? "")%string then EmptyString else String c r
  end.

(** [s.trim()] *)
Definition trim (s : string) : string := trimEnd (trimStart s).

(** [xs.join(sep)] on an array of strings *)
Definition join (sep : string) (xs : list string) : string :=
  String.concat sep xs.

(** [s.startsWith(p)] *)
Fixpoint startsWith (p s : string) : bool :=
  match p with
  | EmptyString => true
  | String a p' =>
      match s with
      | EmptyString => false
      | String b s' => Ascii.eqb a b && startsWith p' s'
      end
  end.

(** [`${n}`] for an integer number *)
Definition number_to_string (n : Z) : string :=
  NilZero.string_of_int (Z.to_int n).

(** Truthiness of an optional string field: absent and empty are falsy. *)
Definition truthy_field (o : option string) : bool :=
  match o with
  | Some s => negb (s =? "")%string
  | None => false
  end.

(** [a || b] on optional string fields *)
Definition or_else (a b : option string) : option string :=
  if truthy_field a then a else b.

End Js.

(** A string is a value: where a value is expected a string stands for the
    string value. *)
Coercion Js.JStr : string >-> Js.value.

(* ================================================================== *)
(** ** Effects: mutable process state and thrown errors *)
(* ================================================================== *)

Module Eff.

(** The completion of a computation: a value, or a thrown [Error] of which
    the handlers only read the message. *)
Inductive Outcome (A : Type) : Type :=
| Returned (a : A)
| Thrown (message : string).
Arguments Returned {A} a.
Arguments Thrown {A} message.

(** A computation over the process state [S]. *)
Definition M (S A : Type) : Type := S -> Outcome A * S.

Definition ret {S A} (a : A) : M S A := fun s => (Returned a, s).

Definition throw {S A} (message : string) : M S A :=
  fun s => (Thrown message, s).

Definition bind {S A B} (m : M S A) (k : A -> M S B) : M S B :=
  fun s =>
    match m s with
    | (Returned a, s') => k a s'
    | (Thrown e, s') => (Thrown e, s')
    end.

(** [try { m } catch (error) { handler(error.message) }] *)
Definition try_catch {S A} (m : M S A) (handler : string -> M S A) : M S A :=
  fun s =>
    match m s with
    | (Returned a, s') => (Returned a, s')
    | (Thrown e, s') => handler e s'
    end.

Definition modify {S} (f : S -> S) : M S unit := fun s => (Returned tt, f s).

Definition gets {S A} (f : S -> A) : M S A := fun s => (Returned (f s), s).

(** [if (c) { m }] *)
Definition when {S} (c : bool) (m : M S unit) : M S unit :=
  if c then m else ret tt.

End Eff.

Import Eff.

Declare Scope eff_scope.
Delimit Scope eff_scope with eff.
Notation "x <- m ;; k" := (bind m (fun x => k))
  (at level 61, m at next level, right associativity) : eff_scope.
Notation "m ;;; k" := (bind m (fun _ => k))
  (at level 61, right associativity) : eff_scope.

(** [await p] for a promise that settles as [p] *)
Definition await {S A} (p : Outcome A) : M S A := fun s => (p, s).

(** [v.key] where [v] can be anything a parsed body can be: reading a
    property of [null] or [undefined] throws a [TypeError]. *)
Definition readProperty {S} (v : Js.value) (key : string) : M S Js.value :=
  match v with
  | Js.JNull =>
      throw ("Cannot read properties of null (reading '" ++ key ++ "')")
  | Js.JUndefined =>
      throw ("Cannot read properties of undefined (reading '" ++ key ++ "')")
  | _ => ret (Js.get key v)
  end.

(* ================================================================== *)
(** ** The protocol boundary and the network *)
(* ================================================================== *)

Module Mcp.
Import Js.

(** [request.params] of a tool call; a missing argument bag is
    [JUndefined]. *)
Record CallToolRequest : Type := {
  name : string;
  arguments : value
}.

(** A content block.  The protocol declares [text] a string; the handlers
    build the block from whatever they hold, so the field is a value. *)
Record TextContent : Type := {
  type : string;
  text : value
}.

Record ToolCallResult : Type := {
  content : list TextContent;
  isError : bool
}.

(** [{ content: [{ type: "text", text }], isError }] with a string text *)
Definition textResult (t : string) (e : bool) : ToolCallResult :=
  {| content := [ {| type := "text"; text := JStr t |} ]; isError := e |}.

(** The same with a text that was not checked to be a string. *)
Definition uncheckedResult (t : value) (e : bool) : ToolCallResult :=
  {| content := [ {| type := "text"; text := t |} ]; isError := e |}.

(** The text of the first content block, the one the host displays, when it
    is a string. *)
Definition resultText (r : ToolCallResult) : string :=
  match content r with
  | b :: _ => match text b with JStr t => t | _ => "" end
  | [] => ""
  end.

(** The object [fetch] resolves to.  [text] and [json] are what
    [response.text()] and [response.json()] settle as; [json_as] is
    [response.json()] read at the interface [P] the caller casts it to, for
    a body of that shape.  The cast checks nothing: a function that works on
    the payload reads it through [json_as], one that hands the parsed body
    on as it is reads it through [json]. *)
Record Response (P : Type) : Type := {
  ok : bool;
  status : Z;
  statusText : string;
  text_body : Outcome string;
  json : Outcome value;
  json_as : Outcome P
}.
Arguments ok {P} _.
Arguments status {P} _.
Arguments statusText {P} _.
Arguments text_body {P} _.
Arguments json {P} _.
Arguments json_as {P} _.

(** One outgoing POST: the endpoint and the object handed to
    [JSON.stringify] for the body.  The headers are the same on every call
    and are not recorded. *)
Record FetchCall : Type := {
  endpoint : string;
  body : value
}.

(** Line feed, the [\n] of the source's string literals. *)
Definition LF : string := String "010"%char EmptyString.

End Mcp.

(* ================================================================== *)
(** ** [src/fire-crawl/index.ts] *)
(* ================================================================== *)

Module IndexTs.
Import Js Mcp.

(** *** Response interfaces *)

Record ScrapeMetadata : Type := {
  meta_title : option string;
  meta_description : option string;
  sourceURL : string;
  statusCode : Z
}.

(** [ScrapeResponse.data] *)
Record ScrapeData : Type := {
  markdown : option string;
  html : option string;
  rawHtml : option string;
  screenshot : option string;
  data_links : option (list string);
  metadata : ScrapeMetadata
}.

(** The interfaces declare [data], [links] and [id] as required; the code
    tests them for presence, so they are optional here. *)
Record ScrapeResponse : Type := {
  scrape_success : bool;
  data : option ScrapeData
}.

Record MapResponse : Type := {
  map_success : bool;
  links : option (list string)
}.

Record CrawlResponse : Type := {
  crawl_success : bool;
  id : option string;
  url : string
}.

(** *** Type guards *)

Definition isScrapeOptions (args : value) : bool :=
  (typeof args =? "object")%string &&
  negb (is_null args) &&
  has_property "url" args &&
  (typeof (get "url" args) =? "string")%string.

Definition isMapOptions (args : value) : bool :=
  (typeof args =? "object")%string &&
  negb (is_null args) &&
  has_property "url" args &&
  (typeof (get "url" args) =? "string")%string.

Definition isCrawlOptions (args : value) : bool :=
  (typeof args =? "object")%string &&
  negb (is_null args) &&
  has_property "url" args &&
  (typeof (get "url" args) =? "string")%string.

(** *** Rate limiting *)

Record RateLimitConfig : Type := {
  perSecond : Z;
  perMinute : Z
}.

Definition RATE_LIMIT : RateLimitConfig :=
  {| perSecond := 2; perMinute := 60 |}.

Record RequestCount : Type := {
  second : Z;
  minute : Z;
  lastReset : Z
}.

(** The two [if] statements that open [checkRateLimit]. *)
Definition resetWindows (now : Z) : M RequestCount unit :=
  (rc <- gets (fun rc => rc) ;;
   when (now - lastReset rc >? 1000)
     (modify (fun rc => {| second := 0; minute := minute rc; lastReset := now |})) ;;;
   rc <- gets (fun rc => rc) ;;
   when (now - lastReset rc >? 60000)
     (modify (fun rc => {| second := second rc; minute := 0; lastReset := lastReset rc |})))%eff.

(** The ceiling comparison and the two increments that close it. *)
Definition countRequest : M RequestCount unit :=
  (rc <- gets (fun rc => rc) ;;
   if (second rc >=? perSecond RATE_LIMIT) || (minute rc >=? perMinute RATE_LIMIT)
   then throw "Rate limit exceeded"
   else
     modify (fun rc => {| second := second rc + 1; minute := minute rc; lastReset := lastReset rc |}) ;;;
     modify (fun rc => {| second := second rc; minute := minute rc + 1; lastReset := lastReset rc |}))%eff.

Definition checkRateLimit (now : Z) : M RequestCount unit :=
  (resetWindows now ;;; countRequest)%eff.

(** *** Process state and environment of one tool call *)

Record World : Type := {
  requestCount : RequestCount;
  fetched : list FetchCall
}.

(** Runs a computation on the limiter inside the process state. *)
Definition onLimiter {A} (m : M RequestCount A) : M World A :=
  fun w =>
    let (r, rc) := m (requestCount w) in
    (r, {| requestCount := rc; fetched := fetched w |}).

(** What the outside world answers during one tool call: the clock, and
    how the POST to each endpoint settles. *)
Record Env : Type := {
  now : Z;
  scrape_upstream : Outcome (Response ScrapeResponse);
  map_upstream : Outcome (Response MapResponse);
  crawl_upstream : Outcome (Response CrawlResponse)
}.

Definition fetch {P} (endpoint : string) (body : value)
    (upstream : Outcome (Response P)) : M World (Response P) :=
  fun w =>
    (upstream,
     {| requestCount := requestCount w;
        fetched := fetched w ++ [ {| Mcp.endpoint := endpoint; Mcp.body := body |} ] |}).

Section Api.

(** [JSON.stringify] of a parsed error body. *)
Variable JSON_stringify : value -> string.

Definition apiError {P} (response : Response P) (errorData : value) : string :=
  "FireCrawl API error: " ++ number_to_string (status response) ++ " " ++
  statusText response ++ LF ++ JSON_stringify errorData.

(** *** API functions *)

Definition performScrape (env : Env) (options : value) : M World string :=
  (onLimiter (checkRateLimit (now env)) ;;;
   response <- fetch "https://api.firecrawl.dev/v1/scrape" options (scrape_upstream env) ;;
   if negb (ok response) then
     errorData <- await (json response) ;;
     throw (apiError response errorData)
   else
     data <- await (json_as response) ;;
     match scrape_success data, IndexTs.data data with
     | true, Some d =>
         let content := or_else (or_else (markdown d) (html d)) (rawHtml d) in
         match content with
         | Some c =>
             if negb (truthy_field content)
             then throw "No content received from FireCrawl API"
             else ret (trim c)
         | None => throw "No content received from FireCrawl API"
         end
     | _, _ => throw "Invalid response from FireCrawl API"
     end)%eff.

Definition performMap (env : Env) (options : value) : M World (list string) :=
  (onLimiter (checkRateLimit (now env)) ;;;
   response <- fetch "https://api.firecrawl.dev/v1/map" options (map_upstream env) ;;
   if negb (ok response) then
     errorData <- await (json response) ;;
     throw (apiError response errorData)
   else
     data <- await (json_as response) ;;
     match map_success data, links data with
     | true, Some ls => ret ls
     | _, _ => throw "Invalid response from FireCrawl API"
     end)%eff.

Definition performCrawl (env : Env) (options : value) : M World string :=
  (onLimiter (checkRateLimit (now env)) ;;;
   response <- fetch "https://api.firecrawl.dev/v1/crawl" options (crawl_upstream env) ;;
   if negb (ok response) then
     errorData <- await (json response) ;;
     throw (apiError response errorData)
   else
     data <- await (json_as response) ;;
     match crawl_success data, id data with
     | true, Some i =>
         if negb (truthy_field (id data))
         then throw "Invalid response from FireCrawl API"
         else ret ("Started crawl " ++ i ++ " for " ++ url data)
     | _, _ => throw "Invalid response from FireCrawl API"
     end)%eff.

(** *** Tool handlers *)

(** [ListToolsRequestSchema]: the names of the registered tools. *)
Definition tools : list string :=
  ["fire_crawl_scrape"; "fire_crawl_map"; "fire_crawl_crawl"].

(** [CallToolRequestSchema] *)
Definition callTool (env : Env) (request : CallToolRequest) : M World ToolCallResult :=
  try_catch
    (let name := name request in
     let args := arguments request in
     if negb (truthy args) then throw "No arguments provided"
     else if (name =? "fire_crawl_scrape")%string then
       if negb (isScrapeOptions args)
       then throw "Invalid arguments for fire_crawl_scrape"
       else
         content <- performScrape env args ;;
         ret (textResult content false)
     else if (name =? "fire_crawl_map")%string then
       if negb (isMapOptions args)
       then throw "Invalid arguments for fire_crawl_map"
       else
         links <- performMap env args ;;
         ret (textResult (join LF links) false)
     else if (name =? "fire_crawl_crawl")%string then
       if negb (isCrawlOptions args)
       then throw "Invalid arguments for fire_crawl_crawl"
       else
         result <- performCrawl env args ;;
         ret (textResult result false)
     else
       ret (textResult ("Unknown tool: " ++ name) true))%eff
    (fun message => ret (textResult ("Error: " ++ message) true)).

End Api.

End IndexTs.

(* ================================================================== *)
(** ** The variant with the scrape and batch tools *)
(* ================================================================== *)

Module Part000.
Import Js Mcp.

(** *** Rate limiting configuration *)

Record RateLimitConfig : Type := {
  perSecond : Z;
  perMinute : Z
}.

Definition RATE_LIMIT : RateLimitConfig :=
  {| perSecond := 2; perMinute := 60 |}.

Record RateLimit : Type := {
  count : Z;
  lastReset : Z
}.

Record RateLimits : Type := {
  second : RateLimit;
  minute : RateLimit
}.

(** The two [if] statements that open [checkRateLimit]. *)
Definition resetWindows (now : Z) : M RateLimits unit :=
  (rl <- gets (fun rl => rl) ;;
   (* Reset second counter *)
   when (now - lastReset (second rl) >? 1000)
     (modify (fun rl => {| second := {| count := 0; lastReset := now |};
                           minute := minute rl |})) ;;;
   rl <- gets (fun rl => rl) ;;
   (* Reset minute counter *)
   when (now - lastReset (minute rl) >? 60000)
     (modify (fun rl => {| second := second rl;
                           minute := {| count := 0; lastReset := now |} |})))%eff.

(** The ceiling comparison and the two increments that close it. *)
Definition countRequest : M RateLimits unit :=
  (rl <- gets (fun rl => rl) ;;
   if (count (second rl) >=? perSecond RATE_LIMIT) ||
      (count (minute rl) >=? perMinute RATE_LIMIT)
   then throw "Rate limit exceeded"
   else
     modify (fun rl => {| second := {| count := count (second rl) + 1;
                                       lastReset := lastReset (second rl) |};
                          minute := minute rl |}) ;;;
     modify (fun rl => {| second := second rl;
                          minute := {| count := count (minute rl) + 1;
                                       lastReset := lastReset (minute rl) |} |}))%eff.

Definition checkRateLimit (now : Z) : M RateLimits unit :=
  (resetWindows now ;;; countRequest)%eff.

(** *** Response interfaces *)

Record ResponseMetadata : Type := {
  lastModified : option string;
  contentType : option string
}.

Record FireCrawlResponse : Type := {
  url : string;
  title : option string;
  markdown : string;
  metadata : option ResponseMetadata;
  next : option string
}.

Record BatchResponse : Type := {
  results : list FireCrawlResponse;
  failed : list string
}.

(** *** Type guards *)

Definition isFireCrawlScrapeArgs (args : value) : bool :=
  (typeof args =? "object")%string &&
  negb (is_null args) &&
  has_property "url" args &&
  (typeof (get "url" args) =? "string")%string.

Definition isFireCrawlBatchArgs (args : value) : bool :=
  (typeof args =? "object")%string &&
  negb (is_null args) &&
  has_property "urls" args &&
  isArray (get "urls" args).

(** *** Process state and environment of one tool call *)

Record World : Type := {
  rateLimits : RateLimits;
  fetched : list FetchCall
}.

Definition onLimiter {A} (m : M RateLimits A) : M World A :=
  fun w =>
    let (r, rl) := m (rateLimits w) in
    (r, {| rateLimits := rl; fetched := fetched w |}).

Record Env : Type := {
  now : Z;
  scrape_upstream : Outcome (Response FireCrawlResponse);
  batch_upstream : Outcome (Response BatchResponse)
}.

Definition fetch {P} (endpoint : string) (body : value)
    (upstream : Outcome (Response P)) : M World (Response P) :=
  fun w =>
    (upstream,
     {| rateLimits := rateLimits w;
        fetched := fetched w ++ [ {| Mcp.endpoint := endpoint; Mcp.body := body |} ] |}).

Definition apiError {P} (response : Response P) (bodyText : string) : string :=
  "FireCrawl API error: " ++ number_to_string (status response) ++ " " ++
  statusText response ++ LF ++ bodyText.

(** *** Tool handlers *)

(** [url] and the fields of [options] are the properties of the argument
    bag the type guard has narrowed.  The function returns what
    [response.json()] settles as; the cast to [FireCrawlResponse] checks
    nothing. *)
Definition performSingleScrape (env : Env) (url : value) (options : value)
    : M World value :=
  (onLimiter (checkRateLimit (now env)) ;;;
   response <- fetch "https://api.firecrawl.dev/scrape"
                 (JObj (("url", url) ::
                        match options with JObj fields => fields | _ => [] end))
                 (scrape_upstream env) ;;
   if negb (ok response) then
     bodyText <- await (text_body response) ;;
     throw (apiError response bodyText)
   else
     await (json response))%eff.

(** The answer is worked on by the handler ([results.map(...).join]) and is
    read at the declared [BatchResponse]. *)
Definition performBatchScrape (env : Env) (urls : value) (options : value)
    : M World BatchResponse :=
  (onLimiter (checkRateLimit (now env)) ;;;
   response <- fetch "https://api.firecrawl.dev/scrape/batch"
                 (JObj [("urls", urls); ("options", options)])
                 (batch_upstream env) ;;
   if negb (ok response) then
     bodyText <- await (text_body response) ;;
     throw (apiError response bodyText)
   else
     await (json_as response))%eff.

(** [ListToolsRequestSchema]: the names of the registered tools. *)
Definition tools : list string :=
  ["fire_crawl_scrape"; "fire_crawl_batch"].

(** [CallToolRequestSchema] *)
Definition callTool (env : Env) (request : CallToolRequest) : M World ToolCallResult :=
  try_catch
    (let name := name request in
     let args := arguments request in
     if negb (truthy args) then
       ret (textResult "Error: No arguments provided" true)
     else if (name =? "fire_crawl_scrape")%string then
       if negb (isFireCrawlScrapeArgs args) then
         ret (textResult "Error: Invalid arguments for single scrape" true)
       else
         try_catch
           (result <- performSingleScrape env (get "url" args)
                        (JObj [("parsePDF", get "parsePDF" args);
                               ("waitForSelector", get "waitForSelector" args);
                               ("javascript", get "javascript" args);
                               ("timeout", get "timeout" args)]) ;;
            md <- readProperty result "markdown" ;;
            ret (uncheckedResult md false))
           (fun message => ret (textResult ("Error: " ++ message) true))
     else if (name =? "fire_crawl_batch")%string then
       if negb (isFireCrawlBatchArgs args) then
         ret (textResult "Error: Invalid arguments for batch scrape" true)
       else
         try_catch
           (result <- performBatchScrape env (get "urls" args) (get "options" args) ;;
            ret (textResult (join (LF ++ LF) (map markdown (results result))) false))
           (fun message => ret (textResult ("Error: " ++ message) true))
     else
       ret (textResult "Error: Unknown tool" true))%eff
    (fun message => ret (textResult ("Error: " ++ message) true)).

End Part000.

(* ================================================================== *)
(** ** Vocabulary of the properties *)
(* ================================================================== *)

(** Whether a call of the limiter returned rather than threw. *)
Definition admitted {S} (r : Outcome unit * S) : bool :=
  match fst r with
  | Returned _ => true
  | Thrown _ => false
  end.

(** A sequence of calls of a limiter at the given clock readings: the verdict
    of each call, and the state they leave. *)
Fixpoint runCalls {S} (check : Z -> M S unit) (times : list Z) (s : S)
    : list bool * S :=
  match times with
  | [] => ([], s)
  | t :: rest =>
      let r := check t s in
      let (vs, s') := runCalls check rest (snd r) in
      (admitted r :: vs, s')
  end.

(** The number of admitted calls among the verdicts. *)
Definition admissions (vs : list bool) : Z :=
  Z.of_nat (List.length (filter (fun v => v) vs)).

(** [n] consecutive windows of the per-second limit starting at [t0], two
    calls in each, the windows 1001 ms apart. *)
Fixpoint twoPerWindow (n : nat) (t0 : Z) : list Z :=
  match n with
  | O => []
  | S k => t0 :: t0 :: twoPerWindow k (t0 + 1001)
  end.

(** The state of a limiter after the window resets of a call at [now]. *)
Definition IndexTs_afterResets (now : Z) (rc : IndexTs.RequestCount)
    : IndexTs.RequestCount :=
  snd (IndexTs.resetWindows now rc).

Definition Part000_afterResets (now : Z) (rl : Part000.RateLimits)
    : Part000.RateLimits :=
  snd (Part000.resetWindows now rl).

(** The claim on the texts of error results: the prefixes an error text is
    said to start with. *)
Definition hasErrorPrefix (t : string) : bool :=
  Js.startsWith "Error: " t || Js.startsWith "FireCrawl API error: " t.

(** An optional content field that is absent or holds the empty string. *)
Definition absentOrEmpty (o : option string) : Prop :=
  o = None \/ o = Some "".

(** The first field of the list that is present and not empty. *)
Fixpoint firstNonEmpty (fields : list (option string)) : option string :=
  match fields with
  | [] => None
  | Some s :: rest => if (s =? "")%string then firstNonEmpty rest else Some s
  | None :: rest => firstNonEmpty rest
  end.

(** The result a tool call returns, when it returns. *)
Definition returns {W} (r : Outcome Mcp.ToolCallResult * W)
    (res : Mcp.ToolCallResult) : Prop :=
  fst r = Returned res.

(** A call of [index.ts] that passes validation and the limiter, and whose
    POST resolves to [response]. *)
Definition IndexTs_scrapeAnswered (env : IndexTs.Env) (request : Mcp.CallToolRequest)
    (w : IndexTs.World) (response : Mcp.Response IndexTs.ScrapeResponse) : Prop :=
  Mcp.name request = "fire_crawl_scrape" /\
  IndexTs.isScrapeOptions (Mcp.arguments request) = true /\
  admitted (IndexTs.checkRateLimit (IndexTs.now env) (IndexTs.requestCount w)) = true /\
  IndexTs.scrape_upstream env = Returned response.

(** The same for the two tools of the other variant. *)
Definition Part000_scrapeAnswered (env : Part000.Env) (request : Mcp.CallToolRequest)
    (w : Part000.World) (response : Mcp.Response Part000.FireCrawlResponse) : Prop :=
  Mcp.name request = "fire_crawl_scrape" /\
  Part000.isFireCrawlScrapeArgs (Mcp.arguments request) = true /\
  admitted (Part000.checkRateLimit (Part000.now env) (Part000.rateLimits w)) = true /\
  Part000.scrape_upstream env = Returned response.

Definition Part000_batchAnswered (env : Part000.Env) (request : Mcp.CallToolRequest)
    (w : Part000.World) (response : Mcp.Response Part000.BatchResponse) : Prop :=
  Mcp.name request = "fire_crawl_batch" /\
  Part000.isFireCrawlBatchArgs (Mcp.arguments request) = true /\
  admitted (Part000.checkRateLimit (Part000.now env) (Part000.rateLimits w)) = true /\
  Part000.batch_upstream env = Returned response.

(** *** Scenarios *)

Definition scrapeRequest : Mcp.CallToolRequest :=
  {| Mcp.name := "fire_crawl_scrape";
     Mcp.arguments := Js.JObj [("url", Js.JStr "https://example.com")] |}.

Definition batchRequest : Mcp.CallToolRequest :=
  {| Mcp.name := "fire_crawl_batch";
     Mcp.arguments :=
       Js.JObj [("urls", Js.JArr [Js.JStr "https://example1.com";
                                  Js.JStr "https://example2.com"])] |}.

(** A scrape call whose bag has no [url]. *)
Definition emptyBagRequest : Mcp.CallToolRequest :=
  {| Mcp.name := "fire_crawl_scrape"; Mcp.arguments := Js.JObj [] |}.

(** A call of a tool neither variant registers. *)
Definition unknownRequest : Mcp.CallToolRequest :=
  {| Mcp.name := "fire_crawl_search";
     Mcp.arguments := Js.JObj [("query", Js.JStr "rocq")] |}.

(** The process state right after start-up, the clock read as 0. *)
Definition IndexTs_idle : IndexTs.World :=
  {| IndexTs.requestCount :=
       {| IndexTs.second := 0; IndexTs.minute := 0; IndexTs.lastReset := 0 |};
     IndexTs.fetched := [] |}.

Definition Part000_idle : Part000.World :=
  {| Part000.rateLimits :=
       {| Part000.second := {| Part000.count := 0; Part000.lastReset := 0 |};
          Part000.minute := {| Part000.count := 0; Part000.lastReset := 0 |} |};
     Part000.fetched := [] |}.

(** A network that cannot be reached. *)
Definition offline {P} : Outcome (Mcp.Response P) := Thrown "fetch failed".

(** HTTP 400 with the body [Invalid URL], which is no JSON document. *)
Definition badRequest {P} : Mcp.Response P :=
  {| Mcp.ok := false; Mcp.status := 400; Mcp.statusText := "Bad Request";
     Mcp.text_body := Returned "Invalid URL";
     Mcp.json := Thrown "Unexpected token I in JSON at position 0";
     Mcp.json_as := Thrown "Unexpected token I in JSON at position 0" |}.

(** HTTP 200 with a JSON body: [raw] as parsed, [payload] the same body at
    the caller's interface.  A body read as JSON is not read as text. *)
Definition okJson {P} (raw : Js.value) (payload : P) : Mcp.Response P :=
  {| Mcp.ok := true; Mcp.status := 200; Mcp.statusText := "OK";
     Mcp.text_body := Thrown "Body has already been read";
     Mcp.json := Returned raw;
     Mcp.json_as := Returned payload |}.

(** HTTP 200 with a JSON body that is not of the shape the caller
    declares: only its parsed form is there to read. *)
Definition okAny {P} (raw : Js.value) : Mcp.Response P :=
  {| Mcp.ok := true; Mcp.status := 200; Mcp.statusText := "OK";
     Mcp.text_body := Thrown "Body has already been read";
     Mcp.json := Returned raw;
     Mcp.json_as := Thrown "the body is not of the declared shape" |}.

Definition IndexTs_env (now : Z)
    (scrape : Outcome (Mcp.Response IndexTs.ScrapeResponse)) : IndexTs.Env :=
  {| IndexTs.now := now; IndexTs.scrape_upstream := scrape;
     IndexTs.map_upstream := offline; IndexTs.crawl_upstream := offline |}.

Definition Part000_env (now : Z)
    (scrape : Outcome (Mcp.Response Part000.FireCrawlResponse))
    (batch : Outcome (Mcp.Response Part000.BatchResponse)) : Part000.Env :=
  {| Part000.now := now; Part000.scrape_upstream := scrape;
     Part000.batch_upstream := batch |}.

(** A page of the scrape and batch variant. *)
Definition page (url markdown : string) : Part000.FireCrawlResponse :=
  {| Part000.url := url; Part000.title := None; Part000.markdown := markdown;
     Part000.metadata := None; Part000.next := None |}.

Definition rawPage (url markdown : string) : Js.value :=
  Js.JObj [("url", Js.JStr url); ("markdown", Js.JStr markdown)].

(** The [data] object of a scrape answer of [index.ts] with the given
    content fields. *)
Definition scrapeData (markdown html rawHtml : option string) : IndexTs.ScrapeData :=
  {| IndexTs.markdown := markdown; IndexTs.html := html; IndexTs.rawHtml := rawHtml;
     IndexTs.screenshot := None; IndexTs.data_links := None;
     IndexTs.metadata :=
       {| IndexTs.meta_title := Some "Example Domain"; IndexTs.meta_description := None;
          IndexTs.sourceURL := "https://example.com"; IndexTs.statusCode := 200 |} |}.

Definition rawField (key : string) (field : option string) : list (string * Js.value) :=
  match field with
  | Some s => [(key, Js.JStr s)]
  | None => []
  end.

Definition rawScrapeAnswer (markdown html rawHtml : option string) : Js.value :=
  Js.JObj [("success", Js.JBool true);
           ("data", Js.JObj (rawField "markdown" markdown ++ rawField "html" html ++
                             rawField "rawHtml" rawHtml ++
                             [("metadata",
                               Js.JObj [("title", Js.JStr "Example Domain");
                                        ("sourceURL", Js.JStr "https://example.com");
                                        ("statusCode", Js.JNum 200)])]))].

(** [{success: true, data: {markdown?, html?, rawHtml?, metadata}}] *)
Definition scrapeAnswer (markdown html rawHtml : option string)
    : Mcp.Response IndexTs.ScrapeResponse :=
  okJson (rawScrapeAnswer markdown html rawHtml)
    {| IndexTs.scrape_success := true;
       IndexTs.data := Some (scrapeData markdown html rawHtml) |}.

(** *** Vocabulary of the further properties *)

(** Counters between zero and their ceilings. *)
Definition Part000_inBounds (rl : Part000.RateLimits) : Prop :=
  0 <= Part000.count (Part000.second rl) <= 2 /\
  0 <= Part000.count (Part000.minute rl) <= 60.

Definition IndexTs_inBounds (rc : IndexTs.RequestCount) : Prop :=
  0 <= IndexTs.second rc <= 2 /\ 0 <= IndexTs.minute rc <= 60.

(** Whether the dispatcher hands the request to one of its API functions:
    the bag is truthy, the name is registered and the tool's guard accepts
    the bag. *)
Definition IndexTs_accepted (request : Mcp.CallToolRequest) : bool :=
  let name := Mcp.name request in
  let args := Mcp.arguments request in
  Js.truthy args &&
  ((name =? "fire_crawl_scrape")%string && IndexTs.isScrapeOptions args ||
   (name =? "fire_crawl_map")%string && IndexTs.isMapOptions args ||
   (name =? "fire_crawl_crawl")%string && IndexTs.isCrawlOptions args).

Definition Part000_accepted (request : Mcp.CallToolRequest) : bool :=
  let name := Mcp.name request in
  let args := Mcp.arguments request in
  Js.truthy args &&
  ((name =? "fire_crawl_scrape")%string && Part000.isFireCrawlScrapeArgs args ||
   (name =? "fire_crawl_batch")%string && Part000.isFireCrawlBatchArgs args).

(** The POST an accepted request of [index.ts] leads to. *)
Definition IndexTs_post (request : Mcp.CallToolRequest) : Mcp.FetchCall :=
  {| Mcp.endpoint :=
       if (Mcp.name request =? "fire_crawl_scrape")%string
       then "https://api.firecrawl.dev/v1/scrape"
       else if (Mcp.name request =? "fire_crawl_map")%string
            then "https://api.firecrawl.dev/v1/map"
            else "https://api.firecrawl.dev/v1/crawl";
     Mcp.body := Mcp.arguments request |}.

(** The POST an accepted request of the other variant leads to. *)
Definition Part000_post (request : Mcp.CallToolRequest) : Mcp.FetchCall :=
  let args := Mcp.arguments request in
  if (Mcp.name request =? "fire_crawl_scrape")%string
  then {| Mcp.endpoint := "https://api.firecrawl.dev/scrape";
          Mcp.body :=
            Js.JObj [("url", Js.get "url" args);
                     ("parsePDF", Js.get "parsePDF" args);
                     ("waitForSelector", Js.get "waitForSelector" args);
                     ("javascript", Js.get "javascript" args);
                     ("timeout", Js.get "timeout" args)] |}
  else {| Mcp.endpoint := "https://api.firecrawl.dev/scrape/batch";
          Mcp.body := Js.JObj [("urls", Js.get "urls" args);
                               ("options", Js.get "options" args)] |}.

(** A string that starts, ends, or consists of white space. *)
Definition startsWithSpace (s : string) : bool :=
  match s with
  | EmptyString => false
  | String c _ => Js.is_white_space c
  end.

Fixpoint endsWithSpace (s : string) : bool :=
  match s with
  | EmptyString => false
  | String c EmptyString => Js.is_white_space c
  | String _ rest => endsWithSpace rest
  end.

Fixpoint allSpace (s : string) : bool :=
  match s with
  | EmptyString => true
  | String c rest => Js.is_white_space c && allSpace rest
  end.

(** A map or crawl call of [index.ts] that passes validation and the
    limiter, and whose POST resolves to [response]. *)
Definition IndexTs_mapAnswered (env : IndexTs.Env) (request : Mcp.CallToolRequest)
    (w : IndexTs.World) (response : Mcp.Response IndexTs.MapResponse) : Prop :=
  Mcp.name request = "fire_crawl_map" /\
  IndexTs.isMapOptions (Mcp.arguments request) = true /\
  admitted (IndexTs.checkRateLimit (IndexTs.now env) (IndexTs.requestCount w)) = true /\
  IndexTs.map_upstream env = Returned response.

Definition IndexTs_crawlAnswered (env : IndexTs.Env) (request : Mcp.CallToolRequest)
    (w : IndexTs.World) (response : Mcp.Response IndexTs.CrawlResponse) : Prop :=
  Mcp.name request = "fire_crawl_crawl" /\
  IndexTs.isCrawlOptions (Mcp.arguments request) = true /\
  admitted (IndexTs.checkRateLimit (IndexTs.now env) (IndexTs.requestCount w)) = true /\
  IndexTs.crawl_upstream env = Returned response.

(** The process state after serving a sequence of tool calls, each in the
    environment it met. *)
Fixpoint IndexTs_serve (JSON_stringify : Js.value -> string)
    (calls : list (IndexTs.Env * Mcp.CallToolRequest)) (w : IndexTs.World)
    : IndexTs.World :=
  match calls with
  | [] => w
  | (env, request) :: rest =>
      IndexTs_serve JSON_stringify rest
        (snd (IndexTs.callTool JSON_stringify env request w))
  end.

Fixpoint Part000_serve (calls : list (Part000.Env * Mcp.CallToolRequest))
    (w : Part000.World) : Part000.World :=
  match calls with
  | [] => w
  | (env, request) :: rest =>
      Part000_serve rest (snd (Part000.callTool env request w))
  end.

(** The clock readings of the calls that pass validation. *)
Definition IndexTs_checkedAt (calls : list (IndexTs.Env * Mcp.CallToolRequest))
    : list Z :=
  map (fun c => IndexTs.now (fst c)) (filter (fun c => IndexTs_accepted (snd c)) calls).

Definition Part000_checkedAt (calls : list (Part000.Env * Mcp.CallToolRequest))
    : list Z :=
  map (fun c => Part000.now (fst c)) (filter (fun c => Part000_accepted (snd c)) calls).

(** The number of POSTs logged. *)
Definition posts (log : list Mcp.FetchCall) : Z := Z.of_nat (List.length log).

(* ================================================================== *)
(** ** The rate limiter *)
(* ================================================================== *)

Section RateLimiter.

Lemma Part000_resetWindows_eq (now : Z) (rl : Part000.RateLimits) :
  Part000.resetWindows now rl =
  (Returned tt,
   {| Part000.second :=
        if now - Part000.lastReset (Part000.second rl) >? 1000
        then {| Part000.count := 0; Part000.lastReset := now |}
        else Part000.second rl;
      Part000.minute :=
        if now - Part000.lastReset (Part000.minute rl) >? 60000
        then {| Part000.count := 0; Part000.lastReset := now |}
        else Part000.minute rl |}).
Proof.
  destruct rl as [s m].
  unfold Part000.resetWindows, bind, gets, when, modify, ret; cbn.
  destruct (now - Part000.lastReset s >? 1000); cbn;
    destruct (now - Part000.lastReset m >? 60000); reflexivity.
Qed.

Lemma Part000_checkRateLimit_eq (now : Z) (rl : Part000.RateLimits) :
  Part000.checkRateLimit now rl =
  let rl1 := Part000_afterResets now rl in
  if (Part000.count (Part000.second rl1) >=? 2) ||
     (Part000.count (Part000.minute rl1) >=? 60)
  then (Thrown "Rate limit exceeded", rl1)
  else (Returned tt,
        {| Part000.second :=
             {| Part000.count := Part000.count (Part000.second rl1) + 1;
                Part000.lastReset := Part000.lastReset (Part000.second rl1) |};
           Part000.minute :=
             {| Part000.count := Part000.count (Part000.minute rl1) + 1;
                Part000.lastReset := Part000.lastReset (Part000.minute rl1) |} |}).
Proof.
  unfold Part000_afterResets, Part000.checkRateLimit, bind.
  rewrite Part000_resetWindows_eq; cbn [snd].
  unfold Part000.countRequest, bind, gets, throw, modify; cbn.
  match goal with |- context [if ?c then _ else _] => destruct c end; reflexivity.
Qed.

Lemma IndexTs_resetWindows_eq (now : Z) (rc : IndexTs.RequestCount) :
  IndexTs.resetWindows now rc =
  (Returned tt,
   if now - IndexTs.lastReset rc >? 1000
   then {| IndexTs.second := 0; IndexTs.minute := IndexTs.minute rc;
           IndexTs.lastReset := now |}
   else if now - IndexTs.lastReset rc >? 60000
        then {| IndexTs.second := IndexTs.second rc; IndexTs.minute := 0;
                IndexTs.lastReset := IndexTs.lastReset rc |}
        else rc).
Proof.
  destruct rc as [s m l].
  unfold IndexTs.resetWindows, bind, gets, when, modify, ret; cbn.
  destruct (now - l >? 1000) eqn:E1; cbn.
  - replace (now - now) with 0 by lia. reflexivity.
  - destruct (now - l >? 60000); reflexivity.
Qed.

Lemma IndexTs_checkRateLimit_eq (now : Z) (rc : IndexTs.RequestCount) :
  IndexTs.checkRateLimit now rc =
  let rc1 := IndexTs_afterResets now rc in
  if (IndexTs.second rc1 >=? 2) || (IndexTs.minute rc1 >=? 60)
  then (Thrown "Rate limit exceeded", rc1)
  else (Returned tt,
        {| IndexTs.second := IndexTs.second rc1 + 1;
           IndexTs.minute := IndexTs.minute rc1 + 1;
           IndexTs.lastReset := IndexTs.lastReset rc1 |}).
Proof.
  unfold IndexTs_afterResets, IndexTs.checkRateLimit, bind.
  rewrite IndexTs_resetWindows_eq; cbn [snd].
  unfold IndexTs.countRequest, bind, gets, throw, modify; cbn.
  match goal with |- context [if ?c || ?d then _ else _] => destruct (c || d) end;
    reflexivity.
Qed.

(** In [index.ts] the reset phase leaves the minute counter as it is,
    whatever the clock reads: once the per-second branch has run,
    [lastReset] is [now] and the per-minute test compares 0 with 60000. *)
Lemma IndexTs_minute_survives_resets (now : Z) (rc : IndexTs.RequestCount) :
  IndexTs.minute (IndexTs_afterResets now rc) = IndexTs.minute rc.
Proof.
  unfold IndexTs_afterResets. rewrite IndexTs_resetWindows_eq; cbn [snd].
  destruct (now - IndexTs.lastReset rc >? 1000) eqn:E1; [reflexivity|].
  destruct (now - IndexTs.lastReset rc >? 60000) eqn:E2; [|reflexivity].
  apply Z.gtb_lt in E2.
  assert (H : (now - IndexTs.lastReset rc >? 1000) = true) by (apply Z.gtb_lt; lia).
  congruence.
Qed.

(** So a call never lowers the minute counter. *)
Lemma IndexTs_minute_never_decreases (now : Z) (rc : IndexTs.RequestCount) :
  IndexTs.minute rc <= IndexTs.minute (snd (IndexTs.checkRateLimit now rc)).
Proof.
  rewrite IndexTs_checkRateLimit_eq; cbv zeta.
  pose proof (IndexTs_minute_survives_resets now rc) as H.
  destruct (_ || _); cbn [snd IndexTs.minute]; lia.
Qed.

(** The variant with one timestamp per window does reset each window on
    its own clock, before the comparison. *)
Lemma Part000_windows_reset_independently (now : Z) (rl : Part000.RateLimits) :
  let rl1 := Part000_afterResets now rl in
  (now - Part000.lastReset (Part000.second rl) > 1000 ->
     Part000.second rl1 = {| Part000.count := 0; Part000.lastReset := now |}) /\
  (now - Part000.lastReset (Part000.minute rl) > 60000 ->
     Part000.minute rl1 = {| Part000.count := 0; Part000.lastReset := now |}) /\
  (now - Part000.lastReset (Part000.second rl) <= 1000 ->
     Part000.second rl1 = Part000.second rl) /\
  (now - Part000.lastReset (Part000.minute rl) <= 60000 ->
     Part000.minute rl1 = Part000.minute rl).
Proof.
  unfold Part000_afterResets. rewrite Part000_resetWindows_eq; cbn [snd].
  cbn [Part000.second Part000.minute].
  repeat split; intros H.
  - apply Z.gt_lt, Z.gtb_lt in H. now rewrite H.
  - apply Z.gt_lt, Z.gtb_lt in H. now rewrite H.
  - destruct (Z.gtb_spec (now - Part000.lastReset (Part000.second rl)) 1000);
      [lia | reflexivity].
  - destruct (Z.gtb_spec (now - Part000.lastReset (Part000.minute rl)) 60000);
      [lia | reflexivity].
Qed.

End RateLimiter.

Section Windows.

Import Part000.

Variable now : Z.
Variable rl : RateLimits.

Let r := checkRateLimit now rl.
Let rl1 := Part000_afterResets now rl.

Ltac limiter_cases :=
  subst r rl1; rewrite Part000_checkRateLimit_eq; cbv zeta;
  unfold Part000_afterResets; rewrite Part000_resetWindows_eq; cbn [snd];
  cbn [second minute count lastReset];
  repeat match goal with
    | |- context [?a >? ?b] => destruct (Z.gtb_spec a b); cbn [second minute count lastReset]
    | |- context [?a >=? ?b] => destruct (Z.geb_spec a b); cbn [second minute count lastReset]
    | |- context [?a <? ?b] => destruct (Z.ltb_spec a b); cbn [second minute count lastReset]
    end;
  cbn; repeat split; try reflexivity; try lia.

(** A call within the per-second window. *)
Lemma Part000_within_second_window :
  now - lastReset (second rl) <= 1000 ->
  admitted r = (count (second rl) <? 2) && (count (minute rl1) <? 60) /\
  lastReset (second (snd r)) = lastReset (second rl) /\
  count (second (snd r)) = count (second rl) + (if admitted r then 1 else 0).
Proof. intros H. limiter_cases. Qed.

(** A call after the per-second window. *)
Lemma Part000_after_second_window :
  now - lastReset (second rl) > 1000 ->
  admitted r = (count (minute rl1) <? 60) /\
  lastReset (second (snd r)) = now /\
  count (second (snd r)) = (if admitted r then 1 else 0).
Proof. intros H. limiter_cases. Qed.

(** A call within the per-minute window. *)
Lemma Part000_within_minute_window :
  now - lastReset (minute rl) <= 60000 ->
  admitted r = (count (minute rl) <? 60) && (count (second rl1) <? 2) /\
  lastReset (minute (snd r)) = lastReset (minute rl) /\
  count (minute (snd r)) = count (minute rl) + (if admitted r then 1 else 0).
Proof. intros H. limiter_cases. Qed.

(** A call after the per-minute window. *)
Lemma Part000_after_minute_window :
  now - lastReset (minute rl) > 60000 ->
  admitted r = (count (second rl1) <? 2) /\
  lastReset (minute (snd r)) = now /\
  count (minute (snd r)) = (if admitted r then 1 else 0).
Proof. intros H. limiter_cases. Qed.

End Windows.

Section Sequences.

Import Part000.

Lemma admissions_cons (v : bool) (vs : list bool) :
  admissions (v :: vs) = (if v then 1 else 0) + admissions vs.
Proof.
  unfold admissions. destruct v; cbn [filter List.length]; lia.
Qed.

Lemma runCalls_cons {S} (check : Z -> M S unit) (t : Z) (ts : list Z) (s : S) :
  runCalls check (t :: ts) s =
  (admitted (check t s) :: fst (runCalls check ts (snd (check t s))),
   snd (runCalls check ts (snd (check t s)))).
Proof.
  cbn [runCalls]. destruct (runCalls check ts (snd (check t s))); reflexivity.
Qed.

(** While the calls stay within the per-second window, its counter counts
    the admitted calls and never passes the ceiling. *)
Lemma Part000_second_window_counts (ts : list Z) :
  forall rl : RateLimits,
    (forall t, In t ts -> t - lastReset (second rl) <= 1000) ->
    let res := runCalls checkRateLimit ts rl in
    count (second (snd res)) = count (second rl) + admissions (fst res) /\
    lastReset (second (snd res)) = lastReset (second rl) /\
    (count (second rl) <= 2 -> count (second (snd res)) <= 2).
Proof.
  induction ts as [|t ts IH]; intros rl Hin; cbv zeta.
  - cbn. unfold admissions; cbn. repeat split; lia.
  - rewrite runCalls_cons; cbn [fst snd].
    destruct (Part000_within_second_window t rl) as (Hadm & Hstart & Hcount);
      [apply Hin; now left|].
    specialize (IH (snd (checkRateLimit t rl))).
    cbv zeta in IH.
    destruct IH as (IHc & IHs & IHb).
    { intros t' Ht'. rewrite Hstart. apply Hin; now right. }
    rewrite admissions_cons.
    split; [lia|]. split; [congruence|].
    intros Hle. apply IHb. rewrite Hcount.
    destruct (admitted (checkRateLimit t rl)); [|lia].
    symmetry in Hadm. apply andb_true_iff in Hadm as [Hlt _].
    apply Z.ltb_lt in Hlt. lia.
Qed.

(** The same for the per-minute window. *)
Lemma Part000_minute_window_counts (ts : list Z) :
  forall rl : RateLimits,
    (forall t, In t ts -> t - lastReset (minute rl) <= 60000) ->
    let res := runCalls checkRateLimit ts rl in
    count (minute (snd res)) = count (minute rl) + admissions (fst res) /\
    lastReset (minute (snd res)) = lastReset (minute rl) /\
    (count (minute rl) <= 60 -> count (minute (snd res)) <= 60).
Proof.
  induction ts as [|t ts IH]; intros rl Hin; cbv zeta.
  - cbn. unfold admissions; cbn. repeat split; lia.
  - rewrite runCalls_cons; cbn [fst snd].
    destruct (Part000_within_minute_window t rl) as (Hadm & Hstart & Hcount);
      [apply Hin; now left|].
    specialize (IH (snd (checkRateLimit t rl))).
    cbv zeta in IH.
    destruct IH as (IHc & IHs & IHb).
    { intros t' Ht'. rewrite Hstart. apply Hin; now right. }
    rewrite admissions_cons.
    split; [lia|]. split; [congruence|].
    intros Hle. apply IHb. rewrite Hcount.
    destruct (admitted (checkRateLimit t rl)); [|lia].
    symmetry in Hadm. apply andb_true_iff in Hadm as [Hlt _].
    apply Z.ltb_lt in Hlt. lia.
Qed.

End Sequences.

Section Ceilings.

(** The comparison that follows the resets, in the variant with one
    timestamp per window. *)
Lemma Part000_ceiling_comparison (now : Z) (rl : Part000.RateLimits) :
  let rl1 := Part000_afterResets now rl in
  let r := Part000.checkRateLimit now rl in
  (2 <= Part000.count (Part000.second rl1) \/
   60 <= Part000.count (Part000.minute rl1) ->
     r = (Thrown "Rate limit exceeded", rl1)) /\
  (Part000.count (Part000.second rl1) < 2 /\
   Part000.count (Part000.minute rl1) < 60 ->
     fst r = Returned tt /\
     Part000.count (Part000.second (snd r)) = Part000.count (Part000.second rl1) + 1 /\
     Part000.count (Part000.minute (snd r)) = Part000.count (Part000.minute rl1) + 1 /\
     Part000.lastReset (Part000.second (snd r)) = Part000.lastReset (Part000.second rl1) /\
     Part000.lastReset (Part000.minute (snd r)) = Part000.lastReset (Part000.minute rl1)).
Proof.
  cbv zeta. rewrite Part000_checkRateLimit_eq; cbv zeta.
  set (rl1 := Part000_afterResets now rl).
  destruct (Z.geb_spec (Part000.count (Part000.second rl1)) 2);
    destruct (Z.geb_spec (Part000.count (Part000.minute rl1)) 60);
    cbn; split; intros; repeat split; try reflexivity; lia.
Qed.

(** The same comparison in [index.ts]. *)
Lemma IndexTs_ceiling_comparison (now : Z) (rc : IndexTs.RequestCount) :
  let rc1 := IndexTs_afterResets now rc in
  let r := IndexTs.checkRateLimit now rc in
  (2 <= IndexTs.second rc1 \/ 60 <= IndexTs.minute rc1 ->
     r = (Thrown "Rate limit exceeded", rc1)) /\
  (IndexTs.second rc1 < 2 /\ IndexTs.minute rc1 < 60 ->
     fst r = Returned tt /\
     IndexTs.second (snd r) = IndexTs.second rc1 + 1 /\
     IndexTs.minute (snd r) = IndexTs.minute rc1 + 1 /\
     IndexTs.lastReset (snd r) = IndexTs.lastReset rc1).
Proof.
  cbv zeta. rewrite IndexTs_checkRateLimit_eq; cbv zeta.
  set (rc1 := IndexTs_afterResets now rc).
  destruct (Z.geb_spec (IndexTs.second rc1) 2);
    destruct (Z.geb_spec (IndexTs.minute rc1) 60);
    cbn; split; intros; repeat split; try reflexivity; lia.
Qed.

End Ceilings.

(** C1 (defect of [index.ts]).  The claim asks that the minute counter be
    reset whenever more than 60000 ms have passed since its window began.
    Starting from the state the module initialises, sixty admitted calls, two
    per window of the per-second limit, fill the minute counter; a call made
    60001 ms after the last of them resets the second counter, leaves the
    minute counter at 60 and is refused. *)
Theorem C1_index_ts_minute_counter_is_not_reset :
  let start := {| IndexTs.second := 0; IndexTs.minute := 0; IndexTs.lastReset := 0 |} in
  let run := runCalls IndexTs.checkRateLimit (twoPerWindow 30 0) start in
  let rc := snd run in
  admissions (fst run) = 60 /\
  rc = {| IndexTs.second := 2; IndexTs.minute := 60; IndexTs.lastReset := 29029 |} /\
  89030 - IndexTs.lastReset rc > 60000 /\
  IndexTs.checkRateLimit 89030 rc =
    (Thrown "Rate limit exceeded",
     {| IndexTs.second := 0; IndexTs.minute := 60; IndexTs.lastReset := 89030 |}).
Proof.
  cbv zeta. repeat split; vm_compute; reflexivity.
Qed.

(** C3 (as amended).  After the resets, a counter at or above its ceiling
    makes the check throw "Rate limit exceeded" with no increment, and
    otherwise both counters grow by one and the check returns; this holds in
    both variants.  In the variant with one timestamp per window, and for
    each window: a call within the window is admitted exactly when the
    window's counter is below its ceiling and the other window's counter,
    after its own reset, is below its ceiling too, it leaves the window's
    start where it was and adds one to the window's counter when it is
    admitted and nothing otherwise; while the calls stay within the window
    its start stays fixed and its counter counts the admitted calls and
    stops at the ceiling; and a call more than the window length after the
    window's start opens a new window at the clock reading, with the counter
    at one when the call is admitted and at zero otherwise, and is admitted
    exactly when the other window admits it. *)
Theorem C3_fixed_window_counters
    (rl : Part000.RateLimits) (rc : IndexTs.RequestCount)
    (now tin_s tout_s tin_m tout_m : Z) (ts_s ts_m : list Z) :
  let check := Part000.checkRateLimit in
  let sec := Part000.second in
  let min := Part000.minute in
  let count := Part000.count in
  let start := Part000.lastReset in
  (* the comparison, both variants *)
  (let rl1 := Part000_afterResets now rl in
   (2 <= count (sec rl1) \/ 60 <= count (min rl1) ->
      check now rl = (Thrown "Rate limit exceeded", rl1)) /\
   (count (sec rl1) < 2 /\ count (min rl1) < 60 ->
      fst (check now rl) = Returned tt /\
      count (sec (snd (check now rl))) = count (sec rl1) + 1 /\
      count (min (snd (check now rl))) = count (min rl1) + 1 /\
      start (sec (snd (check now rl))) = start (sec rl1) /\
      start (min (snd (check now rl))) = start (min rl1))) /\
  (let rc1 := IndexTs_afterResets now rc in
   (2 <= IndexTs.second rc1 \/ 60 <= IndexTs.minute rc1 ->
      IndexTs.checkRateLimit now rc = (Thrown "Rate limit exceeded", rc1)) /\
   (IndexTs.second rc1 < 2 /\ IndexTs.minute rc1 < 60 ->
      fst (IndexTs.checkRateLimit now rc) = Returned tt /\
      IndexTs.second (snd (IndexTs.checkRateLimit now rc)) = IndexTs.second rc1 + 1 /\
      IndexTs.minute (snd (IndexTs.checkRateLimit now rc)) = IndexTs.minute rc1 + 1 /\
      IndexTs.lastReset (snd (IndexTs.checkRateLimit now rc)) = IndexTs.lastReset rc1)) /\
  (* the per-second window *)
  (tin_s - start (sec rl) <= 1000 ->
     admitted (check tin_s rl) =
       (count (sec rl) <? 2) && (count (min (Part000_afterResets tin_s rl)) <? 60) /\
     start (sec (snd (check tin_s rl))) = start (sec rl) /\
     count (sec (snd (check tin_s rl))) =
       count (sec rl) + (if admitted (check tin_s rl) then 1 else 0)) /\
  ((forall t, In t ts_s -> t - start (sec rl) <= 1000) ->
     let res := runCalls check ts_s rl in
     count (sec (snd res)) = count (sec rl) + admissions (fst res) /\
     start (sec (snd res)) = start (sec rl) /\
     (count (sec rl) <= 2 -> count (sec (snd res)) <= 2)) /\
  (tout_s - start (sec rl) > 1000 ->
     admitted (check tout_s rl) = (count (min (Part000_afterResets tout_s rl)) <? 60) /\
     start (sec (snd (check tout_s rl))) = tout_s /\
     count (sec (snd (check tout_s rl))) = (if admitted (check tout_s rl) then 1 else 0)) /\
  (* the per-minute window *)
  (tin_m - start (min rl) <= 60000 ->
     admitted (check tin_m rl) =
       (count (min rl) <? 60) && (count (sec (Part000_afterResets tin_m rl)) <? 2) /\
     start (min (snd (check tin_m rl))) = start (min rl) /\
     count (min (snd (check tin_m rl))) =
       count (min rl) + (if admitted (check tin_m rl) then 1 else 0)) /\
  ((forall t, In t ts_m -> t - start (min rl) <= 60000) ->
     let res := runCalls check ts_m rl in
     count (min (snd res)) = count (min rl) + admissions (fst res) /\
     start (min (snd res)) = start (min rl) /\
     (count (min rl) <= 60 -> count (min (snd res)) <= 60)) /\
  (tout_m - start (min rl) > 60000 ->
     admitted (check tout_m rl) = (count (sec (Part000_afterResets tout_m rl)) <? 2) /\
     start (min (snd (check tout_m rl))) = tout_m /\
     count (min (snd (check tout_m rl))) = (if admitted (check tout_m rl) then 1 else 0)).
Proof.
  cbv zeta.
  split; [exact (Part000_ceiling_comparison now rl)|].
  split; [exact (IndexTs_ceiling_comparison now rc)|].
  split; [intros H; exact (Part000_within_second_window tin_s rl H)|].
  split; [intros H; exact (Part000_second_window_counts ts_s rl H)|].
  split; [intros H; exact (Part000_after_second_window tout_s rl H)|].
  split; [intros H; exact (Part000_within_minute_window tin_m rl H)|].
  split; [intros H; exact (Part000_minute_window_counts ts_m rl H)|].
  intros H; exact (Part000_after_minute_window tout_m rl H).
Qed.

(** C3, instances at the start-up state: a call 600 ms into both windows,
    which leaves both window starts at 0; three calls in the first
    millisecond; calls at 0, 600 and 1200 ms, the last of which falls in a
    new window because the start did not move; and calls after each window
    has run out. *)
Lemma C3_fixed_window_counters_witness :
  let fresh := Part000.rateLimits Part000_idle in
  let check := Part000.checkRateLimit in
  admitted (check 600 fresh) = true /\
  Part000.lastReset (Part000.second (snd (check 600 fresh))) = 0 /\
  Part000.lastReset (Part000.minute (snd (check 600 fresh))) = 0 /\
  Part000.count (Part000.second (snd (runCalls check [0; 0; 0] fresh))) =
    admissions (fst (runCalls check [0; 0; 0] fresh)) /\
  Part000.count (Part000.second (snd (runCalls check [0; 0; 0] fresh))) <= 2 /\
  Part000.lastReset (Part000.second (snd (runCalls check [0; 600] fresh))) = 0 /\
  admitted (check 1200 (snd (runCalls check [0; 600] fresh))) = true /\
  Part000.lastReset (Part000.second (snd (check 1500 fresh))) = 1500 /\
  Part000.count (Part000.minute (snd (runCalls check (twoPerWindow 3 0) fresh))) <= 60 /\
  Part000.lastReset (Part000.minute (snd (check 60001 fresh))) = 60001.
Proof.
  cbv zeta. set (fresh := Part000.rateLimits Part000_idle).
  pose proof (C3_fixed_window_counters fresh (IndexTs.requestCount IndexTs_idle)
                600 600 1500 600 60001 [0; 0; 0] (twoPerWindow 3 0)) as H.
  cbv zeta in H.
  destruct H as (_ & _ & S1 & S2 & S3 & M1 & M2 & M3).
  pose proof (C3_fixed_window_counters fresh (IndexTs.requestCount IndexTs_idle)
                0 0 0 0 0 [0; 600] []) as H'.
  cbv zeta in H'.
  destruct H' as (_ & _ & _ & S2' & _).
  set (later := snd (runCalls Part000.checkRateLimit [0; 600] fresh)) in *.
  pose proof (C3_fixed_window_counters later (IndexTs.requestCount IndexTs_idle)
                0 0 1200 0 0 [] []) as H''.
  cbv zeta in H''.
  destruct H'' as (_ & _ & _ & _ & S3'' & _).
  assert (Hs : forall t, In t [0; 0; 0] ->
                 t - Part000.lastReset (Part000.second fresh) <= 1000).
  { intros t [E|[E|[E|[]]]]; subst t; cbn; lia. }
  assert (Hs' : forall t, In t [0; 600] ->
                  t - Part000.lastReset (Part000.second fresh) <= 1000).
  { intros t [E|[E|[]]]; subst t; cbn; lia. }
  assert (Hm : forall t, In t (twoPerWindow 3 0) ->
                 t - Part000.lastReset (Part000.minute fresh) <= 60000).
  { intros t Ht. cbn in Ht.
    repeat (destruct Ht as [Ht|Ht]; [subst t; cbn; lia|]). destruct Ht. }
  assert (H600s : 600 - Part000.lastReset (Part000.second fresh) <= 1000) by (cbn; lia).
  assert (H600m : 600 - Part000.lastReset (Part000.minute fresh) <= 60000) by (cbn; lia).
  assert (H1500 : 1500 - Part000.lastReset (Part000.second fresh) > 1000) by (cbn; lia).
  assert (H60001 : 60001 - Part000.lastReset (Part000.minute fresh) > 60000) by (cbn; lia).
  assert (Hstart : Part000.lastReset (Part000.second later) = 0)
    by exact (proj1 (proj2 (S2' Hs'))).
  assert (H1200 : 1200 - Part000.lastReset (Part000.second later) > 1000)
    by (rewrite Hstart; lia).
  split; [rewrite (proj1 (S1 H600s)); reflexivity|].
  split; [exact (proj1 (proj2 (S1 H600s)))|].
  split; [exact (proj1 (proj2 (M1 H600m)))|].
  split; [rewrite (proj1 (S2 Hs)); reflexivity|].
  split; [apply (proj2 (proj2 (S2 Hs))); cbn; lia|].
  split; [exact Hstart|].
  split; [rewrite (proj1 (S3'' H1200)); reflexivity|].
  split; [exact (proj1 (proj2 (S3 H1500)))|].
  split; [apply (proj2 (proj2 (M2 Hm))); cbn; lia|].
  exact (proj1 (proj2 (M3 H60001))).
Defined.

(** C3, the claim as worded fails for each window taken alone: from the
    start-up state the third call of the first millisecond is refused though
    it is among the first sixty of the minute window, and after sixty
    admitted calls in thirty seconds a call made once the per-second window
    has run out is refused, the minute counter standing at its ceiling. *)
Lemma C3_windows_depend_on_each_other :
  let fresh := Part000.rateLimits Part000_idle in
  let check := Part000.checkRateLimit in
  fst (runCalls check [0; 0; 0] fresh) = [true; true; false] /\
  (let rl := snd (runCalls check (twoPerWindow 30 0) fresh) in
   admissions (fst (runCalls check (twoPerWindow 30 0) fresh)) = 60 /\
   31000 - Part000.lastReset (Part000.second rl) > 1000 /\
   31000 - Part000.lastReset (Part000.minute rl) <= 60000 /\
   check 31000 rl =
     (Thrown "Rate limit exceeded",
      {| Part000.second := {| Part000.count := 0; Part000.lastReset := 31000 |};
         Part000.minute := {| Part000.count := 60; Part000.lastReset := 0 |} |})).
Proof.
  cbv zeta. repeat split; vm_compute; congruence.
Qed.

(* ================================================================== *)
(** ** The argument validators *)
(* ================================================================== *)

Section Validators.

Import Js.

(** The shape shared by the four guards on [url]. *)
Lemma url_guard_shape (args : value) :
  (typeof args =? "object")%string && negb (is_null args) &&
    has_property "url" args && (typeof (get "url" args) =? "string")%string = true
  <-> exists fields s, args = JObj fields /\ lookup "url" fields = Some (JStr s).
Proof.
  split.
  - destruct args as [| |b|n|s|items|fields]; cbn; try discriminate.
    destruct (lookup "url" fields) as [v|] eqn:E; cbn; [|discriminate].
    destruct v; cbn; try discriminate.
    intros _. eauto.
  - intros (fields & s & -> & E). cbn. rewrite E. reflexivity.
Qed.

Lemma urls_guard_shape (args : value) :
  Part000.isFireCrawlBatchArgs args = true
  <-> exists fields items, args = JObj fields /\ lookup "urls" fields = Some (JArr items).
Proof.
  unfold Part000.isFireCrawlBatchArgs. split.
  - destruct args as [| |b|n|s|items|fields]; cbn; try discriminate.
    destruct (lookup "urls" fields) as [v|] eqn:E; cbn; [|discriminate].
    destruct v; cbn; try discriminate.
    intros _. eauto.
  - intros (fields & items & -> & E). cbn. rewrite E. reflexivity.
Qed.

(** A bag that is not an object, or has no string [url], fails every guard
    on [url]; in particular a missing bag does. *)
Lemma guards_reject_undefined :
  IndexTs.isScrapeOptions JUndefined = false /\
  IndexTs.isMapOptions JUndefined = false /\
  IndexTs.isCrawlOptions JUndefined = false /\
  Part000.isFireCrawlScrapeArgs JUndefined = false /\
  Part000.isFireCrawlBatchArgs JUndefined = false.
Proof. repeat split. Qed.

End Validators.

(** C6 (as amended).  Each validator accepts an argument bag exactly when
    the bag is an object whose required field is present with the required
    type: a string [url] for scrape, map and crawl, an array [urls] for
    batch.  No optional field is examined, so a bag with a string [url] is
    accepted whatever else it holds. *)
Theorem C6_validators_check_the_required_field_only (args : Js.value) :
  let hasStringUrl :=
    exists fields s, args = Js.JObj fields /\ Js.lookup "url" fields = Some (Js.JStr s) in
  let hasArrayUrls :=
    exists fields items,
      args = Js.JObj fields /\ Js.lookup "urls" fields = Some (Js.JArr items) in
  (IndexTs.isScrapeOptions args = true <-> hasStringUrl) /\
  (IndexTs.isMapOptions args = true <-> hasStringUrl) /\
  (IndexTs.isCrawlOptions args = true <-> hasStringUrl) /\
  (Part000.isFireCrawlScrapeArgs args = true <-> hasStringUrl) /\
  (Part000.isFireCrawlBatchArgs args = true <-> hasArrayUrls) /\
  (forall (u : string) (optional : list (string * Js.value)),
     let bag := Js.JObj (("url", Js.JStr u) :: optional) in
     IndexTs.isScrapeOptions bag = true /\
     IndexTs.isMapOptions bag = true /\
     IndexTs.isCrawlOptions bag = true /\
     Part000.isFireCrawlScrapeArgs bag = true).
Proof.
  cbv zeta.
  split; [apply url_guard_shape|].
  split; [apply url_guard_shape|].
  split; [apply url_guard_shape|].
  split; [apply url_guard_shape|].
  split; [apply urls_guard_shape|].
  intros u optional. repeat split.
Qed.

(** C6, the claim as worded fails: a bag whose [url] is a string and whose
    [timeout] is a string, or whose [formats] is not an array, passes the
    scrape validators. *)
Lemma C6_optional_fields_are_not_checked :
  IndexTs.isScrapeOptions
    (Js.JObj [("url", Js.JStr "https://example.com"); ("timeout", Js.JStr "30")]) = true /\
  IndexTs.isScrapeOptions
    (Js.JObj [("url", Js.JStr "https://example.com"); ("formats", Js.JStr "markdown")]) = true /\
  Part000.isFireCrawlScrapeArgs
    (Js.JObj [("url", Js.JStr "https://example.com"); ("timeout", Js.JStr "30")]) = true.
Proof. repeat split. Qed.

(* ================================================================== *)
(** ** The dispatcher *)
(* ================================================================== *)

(** Opens the monadic plumbing of a handler. *)
Ltac open_handler :=
  unfold IndexTs.callTool, Part000.callTool,
    IndexTs.performScrape, IndexTs.performMap, IndexTs.performCrawl,
    Part000.performSingleScrape, Part000.performBatchScrape,
    IndexTs.onLimiter, Part000.onLimiter, IndexTs.fetch, Part000.fetch,
    readProperty, try_catch, bind, ret, throw, await.

(** Splits on the next test or settled promise a handler inspects. *)
Ltac next_case :=
  match goal with
  | |- context [match ?x with _ => _ end] =>
      lazymatch x with
      | context [match _ with _ => _ end] => fail
      | _ => destruct x eqn:?
      end
  end.

Section Dispatcher.

Import Js Mcp.

Variable JSON_stringify : value -> string.

(** The limiter either returns or throws its one message. *)
Lemma IndexTs_limiter_outcomes (now : Z) (rc : IndexTs.RequestCount) :
  fst (IndexTs.checkRateLimit now rc) = Returned tt \/
  fst (IndexTs.checkRateLimit now rc) = Thrown "Rate limit exceeded".
Proof.
  rewrite IndexTs_checkRateLimit_eq; cbv zeta.
  destruct (_ || _); cbn; auto.
Qed.

Lemma Part000_limiter_outcomes (now : Z) (rl : Part000.RateLimits) :
  fst (Part000.checkRateLimit now rl) = Returned tt \/
  fst (Part000.checkRateLimit now rl) = Thrown "Rate limit exceeded".
Proof.
  rewrite Part000_checkRateLimit_eq; cbv zeta.
  destruct (_ || _); cbn; auto.
Qed.

(** Every path through the dispatcher of [index.ts] ends in a return of
    one text block. *)
Lemma IndexTs_callTool_total (env : IndexTs.Env) (request : CallToolRequest)
    (w : IndexTs.World) :
  exists t e, fst (IndexTs.callTool JSON_stringify env request w)
              = Returned (textResult t e).
Proof.
  open_handler.
  repeat (next_case; cbn [fst snd]); eauto.
Qed.

(** Every path through the other dispatcher ends in a return of one block
    too.  Its text is a string on every path but one: a scrape call answered
    with an HTTP success returns what the parsed body holds under
    [markdown]. *)
Lemma Part000_callTool_total (env : Part000.Env) (request : CallToolRequest)
    (w : Part000.World) :
  exists (v : value) (e : bool),
    fst (Part000.callTool env request w) = Returned (uncheckedResult v e) /\
    ((exists t : string, v = JStr t) \/
     (exists response raw,
        Part000_scrapeAnswered env request w response /\
        ok response = true /\
        json response = Returned raw /\
        e = false /\ v = get "markdown" raw)).
Proof.
  unfold Part000_scrapeAnswered, admitted.
  open_handler.
  repeat (next_case; cbn [fst snd]);
    try (eexists _, _; split; [reflexivity|]; left; eexists; reflexivity).
  all: eexists _, _; (split; [reflexivity|]); right;
    repeat match goal with
      | H : (_ =? _)%string = true |- _ => apply String.eqb_eq in H
      | H : negb _ = false |- _ => apply negb_false_iff in H
      | H : negb _ = true |- _ => apply negb_true_iff in H
      end;
    eexists _, _; repeat split; eauto;
    match goal with
    | H : Part000.checkRateLimit _ _ = _ |- _ => rewrite H; reflexivity
    end.
Qed.

End Dispatcher.

(** Closes a leaf of the case analysis of a handler: the returned result is
    the one the branch built. *)
Ltac leaf :=
  cbn [fst snd] in *;
  repeat match goal with
    | H : (_ =? _)%string = false |- _ => apply String.eqb_neq in H
    | H : (_ =? _)%string = true |- _ => apply String.eqb_eq in H
    | H : Returned _ = Returned _ |- _ => inversion H; subst; clear H
    | H : returns _ _ |- _ => unfold returns in H; cbn [fst snd] in H
    end.

Section ErrorTexts.

Import Js Mcp.

Variable JSON_stringify : value -> string.

(** An error text built by a [catch] clause starts with "Error: ". *)
Lemma caught_text_has_prefix (message : string) :
  startsWith "Error: " ("Error: " ++ message) = true.
Proof. reflexivity. Qed.

(** In [index.ts] an error result either comes from the [catch] clause or
    is the answer to a name outside the registered tools. *)
Lemma IndexTs_error_texts (env : IndexTs.Env) (request : CallToolRequest)
    (w : IndexTs.World) (r : ToolCallResult) :
  returns (IndexTs.callTool JSON_stringify env request w) r ->
  isError r = true ->
  startsWith "Error: " (resultText r) = true \/
  (~ In (name request) IndexTs.tools /\
   resultText r = "Unknown tool: " ++ name request).
Proof.
  unfold returns. open_handler.
  repeat (next_case; cbn [fst snd]); intros Hr He; leaf;
    try discriminate; try (left; reflexivity).
  right. split; [|reflexivity].
  intros [E|[E|[E|[]]]]; congruence.
Qed.

(** In the other variant every error text starts with "Error: ". *)
Lemma Part000_error_texts (env : Part000.Env) (request : CallToolRequest)
    (w : Part000.World) (r : ToolCallResult) :
  returns (Part000.callTool env request w) r ->
  isError r = true ->
  startsWith "Error: " (resultText r) = true.
Proof.
  unfold returns. open_handler.
  repeat (next_case; cbn [fst snd]); intros Hr He; leaf;
    try discriminate; reflexivity.
Qed.

End ErrorTexts.

Section Rejections.

Import Js Mcp.

Variable JSON_stringify : value -> string.

(** What a rejected call looks like in [index.ts]: an error result, and the
    process state as it was. *)
Lemma IndexTs_rejected (env : IndexTs.Env) (request : CallToolRequest)
    (w : IndexTs.World) :
  ~ In (name request) IndexTs.tools \/
  (name request = "fire_crawl_scrape" /\ IndexTs.isScrapeOptions (arguments request) = false) \/
  (name request = "fire_crawl_map" /\ IndexTs.isMapOptions (arguments request) = false) \/
  (name request = "fire_crawl_crawl" /\ IndexTs.isCrawlOptions (arguments request) = false) ->
  exists t, IndexTs.callTool JSON_stringify env request w = (Returned (textResult t true), w).
Proof.
  intros H. unfold IndexTs.callTool, try_catch; cbv zeta.
  destruct (truthy (arguments request)); cbn [negb];
    [|unfold throw, ret; cbn; eauto].
  destruct H as [H|[[Hn H]|[[Hn H]|[Hn H]]]].
  - assert (H1 : (name request =? "fire_crawl_scrape")%string = false)
      by (apply String.eqb_neq; intros E; apply H; rewrite E; cbn; auto).
    assert (H2 : (name request =? "fire_crawl_map")%string = false)
      by (apply String.eqb_neq; intros E; apply H; rewrite E; cbn; auto).
    assert (H3 : (name request =? "fire_crawl_crawl")%string = false)
      by (apply String.eqb_neq; intros E; apply H; rewrite E; cbn; auto).
    rewrite H1, H2, H3. unfold ret; cbn. eauto.
  - rewrite Hn, H. unfold throw, ret; cbn. eauto.
  - rewrite Hn, H. unfold throw, ret; cbn. eauto.
  - rewrite Hn, H. unfold throw, ret; cbn. eauto.
Qed.

Lemma Part000_rejected (env : Part000.Env) (request : CallToolRequest)
    (w : Part000.World) :
  ~ In (name request) Part000.tools \/
  (name request = "fire_crawl_scrape" /\
   Part000.isFireCrawlScrapeArgs (arguments request) = false) \/
  (name request = "fire_crawl_batch" /\
   Part000.isFireCrawlBatchArgs (arguments request) = false) ->
  exists t, Part000.callTool env request w = (Returned (textResult t true), w).
Proof.
  intros H. unfold Part000.callTool, try_catch; cbv zeta.
  destruct (truthy (arguments request)); cbn [negb];
    [|unfold throw, ret; cbn; eauto].
  destruct H as [H|[[Hn H]|[Hn H]]].
  - assert (H1 : (name request =? "fire_crawl_scrape")%string = false)
      by (apply String.eqb_neq; intros E; apply H; rewrite E; cbn; auto).
    assert (H2 : (name request =? "fire_crawl_batch")%string = false)
      by (apply String.eqb_neq; intros E; apply H; rewrite E; cbn; auto).
    rewrite H1, H2. unfold ret; cbn. eauto.
  - rewrite Hn, H. unfold throw, ret; cbn. eauto.
  - rewrite Hn, H. unfold throw, ret; cbn. eauto.
Qed.

End Rejections.

(** C2 (as amended).  Every result with [isError = true] has a text that
    starts with "Error: " -- an upstream HTTP failure reads
    "Error: FireCrawl API error: ..." -- except the answer of [index.ts] to
    a name outside its registered tools, whose text is "Unknown tool: "
    followed by the name.  The converse is not promised: a successful result
    carries the upstream text as it came. *)
Theorem C2_error_results_start_with_Error
    (JSON_stringify : Js.value -> string)
    (envI : IndexTs.Env) (wI : IndexTs.World)
    (envP : Part000.Env) (wP : Part000.World)
    (request : Mcp.CallToolRequest) (rI rP : Mcp.ToolCallResult) :
  (returns (IndexTs.callTool JSON_stringify envI request wI) rI ->
   Mcp.isError rI = true ->
   Js.startsWith "Error: " (Mcp.resultText rI) = true \/
   (~ In (Mcp.name request) IndexTs.tools /\
    Mcp.resultText rI = "Unknown tool: " ++ Mcp.name request)) /\
  (returns (Part000.callTool envP request wP) rP ->
   Mcp.isError rP = true ->
   Js.startsWith "Error: " (Mcp.resultText rP) = true).
Proof.
  split.
  - apply IndexTs_error_texts.
  - apply Part000_error_texts.
Qed.

(** C2, an instance: a scrape call without [url], in both variants. *)
Lemma C2_error_results_start_with_Error_witness :
  Js.startsWith "Error: " "Error: Invalid arguments for fire_crawl_scrape" = true /\
  Js.startsWith "Error: " "Error: Invalid arguments for single scrape" = true.
Proof.
  pose proof (C2_error_results_start_with_Error (fun _ => EmptyString)
                (IndexTs_env 0 offline) IndexTs_idle
                (Part000_env 0 offline offline) Part000_idle
                emptyBagRequest
                (Mcp.textResult "Error: Invalid arguments for fire_crawl_scrape" true)
                (Mcp.textResult "Error: Invalid arguments for single scrape" true))
    as [HI HP].
  split.
  - destruct (HI eq_refl eq_refl) as [H|[_ H]]; [exact H | discriminate H].
  - exact (HP eq_refl eq_refl).
Defined.

(** C2, the claim as worded fails in both directions: a page whose markdown
    starts with "Error: " is returned as a success with that text, and
    [index.ts] answers an unregistered name with an error whose text has
    neither prefix. *)
Lemma C2_prefix_and_flag_disagree :
  (exists r,
     returns (Part000.callTool
                (Part000_env 0
                   (Returned (okJson (rawPage "https://example.com" "Error: 404 page")
                                (page "https://example.com" "Error: 404 page")))
                   offline)
                scrapeRequest Part000_idle) r /\
     Mcp.isError r = false /\
     hasErrorPrefix (Mcp.resultText r) = true) /\
  (forall JSON_stringify,
   exists r,
     returns (IndexTs.callTool JSON_stringify (IndexTs_env 0 offline)
                unknownRequest IndexTs_idle) r /\
     Mcp.isError r = true /\
     hasErrorPrefix (Mcp.resultText r) = false).
Proof.
  split.
  - eexists. repeat split.
  - intros f. eexists. repeat split.
Qed.

(** C4.  A call of an unregistered tool, or with a bag its tool's validator
    refuses, returns an error result, sends no request and leaves the
    counters and timestamps of the limiter as they were; in both variants. *)
Theorem C4_rejected_calls_touch_nothing
    (JSON_stringify : Js.value -> string)
    (envI : IndexTs.Env) (wI : IndexTs.World)
    (envP : Part000.Env) (wP : Part000.World)
    (request : Mcp.CallToolRequest) :
  let name := Mcp.name request in
  let args := Mcp.arguments request in
  let outI := IndexTs.callTool JSON_stringify envI request wI in
  let outP := Part000.callTool envP request wP in
  (~ In name IndexTs.tools \/
   (name = "fire_crawl_scrape" /\ IndexTs.isScrapeOptions args = false) \/
   (name = "fire_crawl_map" /\ IndexTs.isMapOptions args = false) \/
   (name = "fire_crawl_crawl" /\ IndexTs.isCrawlOptions args = false) ->
   exists r,
     returns outI r /\ Mcp.isError r = true /\
     IndexTs.fetched (snd outI) = IndexTs.fetched wI /\
     IndexTs.requestCount (snd outI) = IndexTs.requestCount wI) /\
  (~ In name Part000.tools \/
   (name = "fire_crawl_scrape" /\ Part000.isFireCrawlScrapeArgs args = false) \/
   (name = "fire_crawl_batch" /\ Part000.isFireCrawlBatchArgs args = false) ->
   exists r,
     returns outP r /\ Mcp.isError r = true /\
     Part000.fetched (snd outP) = Part000.fetched wP /\
     Part000.rateLimits (snd outP) = Part000.rateLimits wP).
Proof.
  cbv zeta. split; intros H.
  - destruct (IndexTs_rejected JSON_stringify envI request wI H) as [t E].
    rewrite E. exists (Mcp.textResult t true). repeat split.
  - destruct (Part000_rejected envP request wP H) as [t E].
    rewrite E. exists (Mcp.textResult t true). repeat split.
Qed.

(** C4, instances: an unregistered tool, and a scrape call without [url]. *)
Lemma C4_rejected_calls_touch_nothing_witness :
  (exists r,
     returns (IndexTs.callTool (fun _ => EmptyString) (IndexTs_env 0 offline)
                unknownRequest IndexTs_idle) r /\ Mcp.isError r = true) /\
  (exists r,
     returns (Part000.callTool (Part000_env 0 offline offline)
                emptyBagRequest Part000_idle) r /\ Mcp.isError r = true).
Proof.
  split.
  - destruct (C4_rejected_calls_touch_nothing (fun _ => EmptyString)
                (IndexTs_env 0 offline) IndexTs_idle
                (Part000_env 0 offline offline) Part000_idle unknownRequest)
      as [HI _].
    destruct HI as (r & Hr & He & _).
    + left. cbn. intros [E|[E|[E|[]]]]; discriminate E.
    + exists r. split; assumption.
  - destruct (C4_rejected_calls_touch_nothing (fun _ => EmptyString)
                (IndexTs_env 0 offline) IndexTs_idle
                (Part000_env 0 offline offline) Part000_idle emptyBagRequest)
      as [_ HP].
    destruct HP as (r & Hr & He & _).
    + right. left. split; reflexivity.
    + exists r. split; assumption.
Defined.

(** C9 (as amended).  Whatever the tool name, the argument bag and the
    behaviour of the network and of the body parser, the call-tool handler
    returns, and what it returns is one block of type "text" and an error
    flag; in both variants.  The text is a string in [index.ts], and in the
    other variant on every path but one: a scrape call answered with an HTTP
    success returns as text what the parsed body holds under [markdown],
    with the error flag unset. *)
Theorem C9_call_tool_returns_one_text_block
    (JSON_stringify : Js.value -> string)
    (envI : IndexTs.Env) (wI : IndexTs.World)
    (envP : Part000.Env) (wP : Part000.World)
    (request : Mcp.CallToolRequest) :
  (exists (t : string) (e : bool),
     fst (IndexTs.callTool JSON_stringify envI request wI) =
     Returned {| Mcp.content := [ {| Mcp.type := "text"; Mcp.text := Js.JStr t |} ];
                 Mcp.isError := e |}) /\
  (exists (v : Js.value) (e : bool),
     fst (Part000.callTool envP request wP) =
     Returned {| Mcp.content := [ {| Mcp.type := "text"; Mcp.text := v |} ];
                 Mcp.isError := e |} /\
     ((exists t : string, v = Js.JStr t) \/
      (exists response raw,
         Part000_scrapeAnswered envP request wP response /\
         Mcp.ok response = true /\
         Mcp.json response = Returned raw /\
         e = false /\ v = Js.get "markdown" raw))).
Proof.
  split.
  - apply IndexTs_callTool_total.
  - apply Part000_callTool_total.
Qed.

(** C9, the claim as worded fails: a scrape call of the variant with the
    batch tool, answered with HTTP 200 and a body that has no [markdown],
    returns a block whose text is [undefined], not a string, with the error
    flag unset. *)
Lemma C9_scrape_text_can_be_undefined :
  let out :=
    Part000.callTool
      (Part000_env 0 (Returned (okAny (Js.JObj [("url", Js.JStr "https://example.com")])))
         offline)
      scrapeRequest Part000_idle in
  fst out =
    Returned {| Mcp.content := [ {| Mcp.type := "text"; Mcp.text := Js.JUndefined |} ];
                Mcp.isError := false |} /\
  ~ (exists (t : string) (e : bool),
       fst out =
       Returned {| Mcp.content := [ {| Mcp.type := "text"; Mcp.text := Js.JStr t |} ];
                   Mcp.isError := e |}).
Proof.
  cbv zeta. split; [reflexivity|].
  intros (t & e & H). discriminate H.
Qed.

(* ================================================================== *)
(** ** The response mappers *)
(* ================================================================== *)

(** Steps a handler past the limiter of an admitted call. *)
Ltac pass_limiter Ha :=
  match goal with
  | |- context [IndexTs.checkRateLimit ?n ?rc] =>
      unfold admitted in Ha;
      destruct (IndexTs.checkRateLimit n rc) as [[[]|?] ?]; cbn [fst] in Ha;
      [|discriminate Ha]
  | |- context [Part000.checkRateLimit ?n ?rl] =>
      unfold admitted in Ha;
      destruct (Part000.checkRateLimit n rl) as [[[]|?] ?]; cbn [fst] in Ha;
      [|discriminate Ha]
  end.

Section Mappers.

Import Js Mcp.

Variable JSON_stringify : value -> string.

(** A bag that passes a guard is an object, hence truthy. *)
Lemma url_guard_truthy (args : value) :
  (typeof args =? "object")%string && negb (is_null args) &&
    has_property "url" args && (typeof (get "url" args) =? "string")%string = true ->
  truthy args = true.
Proof. destruct args; cbn; congruence. Qed.

Lemma urls_guard_truthy (args : value) :
  Part000.isFireCrawlBatchArgs args = true -> truthy args = true.
Proof. destruct args; cbn; congruence. Qed.

(** [firstNonEmpty] on the three content fields is the chain of [||]. *)
Lemma or_else_firstNonEmpty (a b c : option string) :
  firstNonEmpty [a; b; c] =
  if truthy_field (or_else (or_else a b) c) then or_else (or_else a b) c else None.
Proof.
  unfold or_else.
  destruct a as [a|]; [destruct (a =? "")%string eqn:Ea|];
    (destruct b as [b|]; [destruct (b =? "")%string eqn:Eb|]);
    (destruct c as [c|]; [destruct (c =? "")%string eqn:Ec|]);
    cbn; repeat (rewrite ?Ea, ?Eb, ?Ec; cbn); reflexivity.
Qed.

(** The scrape mapper of [index.ts] on a payload with [success] set and
    [data] present. *)
Lemma IndexTs_scrape_mapped (env : IndexTs.Env) (request : CallToolRequest)
    (w : IndexTs.World) (response : Response IndexTs.ScrapeResponse)
    (payload : IndexTs.ScrapeResponse) (d : IndexTs.ScrapeData) :
  IndexTs_scrapeAnswered env request w response ->
  ok response = true ->
  json_as response = Returned payload ->
  IndexTs.scrape_success payload = true ->
  IndexTs.data payload = Some d ->
  fst (IndexTs.callTool JSON_stringify env request w) =
  Returned
    match firstNonEmpty [IndexTs.markdown d; IndexTs.html d; IndexTs.rawHtml d] with
    | Some c => textResult (trim c) false
    | None => textResult "Error: No content received from FireCrawl API" true
    end.
Proof.
  intros (Hn & Hv & Ha & Hu) Hok Hjson Hs Hd.
  pose proof (url_guard_truthy _ Hv) as Ht.
  rewrite or_else_firstNonEmpty.
  unfold IndexTs.callTool; cbv zeta. rewrite Ht, Hn, Hv.
  open_handler. cbn [negb String.eqb Ascii.eqb Bool.eqb].
  pass_limiter Ha. cbn [IndexTs.requestCount IndexTs.fetched].
  rewrite Hu, Hok; cbn [negb]. rewrite Hjson, Hs, Hd.
  destruct (or_else (or_else (IndexTs.markdown d) (IndexTs.html d)) (IndexTs.rawHtml d))
    as [c|] eqn:Ec; cbn [truthy_field]; [|reflexivity].
  destruct (negb (c =? "")%string); reflexivity.
Qed.

(** The error branch of the scrape call of [index.ts]. *)
Lemma IndexTs_scrape_http_failure (env : IndexTs.Env) (request : CallToolRequest)
    (w : IndexTs.World) (response : Response IndexTs.ScrapeResponse) :
  IndexTs_scrapeAnswered env request w response ->
  ok response = false ->
  fst (IndexTs.callTool JSON_stringify env request w) =
  Returned
    match json response with
    | Returned errorData =>
        textResult ("Error: " ++ IndexTs.apiError JSON_stringify response errorData) true
    | Thrown message => textResult ("Error: " ++ message) true
    end.
Proof.
  intros (Hn & Hv & Ha & Hu) Hok.
  pose proof (url_guard_truthy _ Hv) as Ht.
  unfold IndexTs.callTool; cbv zeta. rewrite Ht, Hn, Hv.
  open_handler. cbn [negb String.eqb Ascii.eqb Bool.eqb].
  pass_limiter Ha. cbn [IndexTs.requestCount IndexTs.fetched].
  rewrite Hu, Hok; cbn [negb].
  destruct (json response); reflexivity.
Qed.

(** The error branch of the scrape call of the other variant. *)
Lemma Part000_scrape_http_failure (env : Part000.Env) (request : CallToolRequest)
    (w : Part000.World) (response : Response Part000.FireCrawlResponse) :
  Part000_scrapeAnswered env request w response ->
  ok response = false ->
  fst (Part000.callTool env request w) =
  Returned
    match text_body response with
    | Returned bodyText =>
        textResult ("Error: " ++ Part000.apiError response bodyText) true
    | Thrown message => textResult ("Error: " ++ message) true
    end.
Proof.
  intros (Hn & Hv & Ha & Hu) Hok.
  pose proof (url_guard_truthy _ Hv) as Ht.
  unfold Part000.callTool; cbv zeta. rewrite Ht, Hn, Hv.
  open_handler. cbn [negb String.eqb Ascii.eqb Bool.eqb].
  pass_limiter Ha. cbn [Part000.rateLimits Part000.fetched].
  rewrite Hu, Hok; cbn [negb].
  destruct (text_body response); reflexivity.
Qed.

(** The batch mapper. *)
Lemma Part000_batch_mapped (env : Part000.Env) (request : CallToolRequest)
    (w : Part000.World) (response : Response Part000.BatchResponse)
    (payload : Part000.BatchResponse) :
  Part000_batchAnswered env request w response ->
  ok response = true ->
  json_as response = Returned payload ->
  fst (Part000.callTool env request w) =
  Returned (textResult
              (join (LF ++ LF) (map Part000.markdown (Part000.results payload)))
              false).
Proof.
  intros (Hn & Hv & Ha & Hu) Hok Hjson.
  pose proof (urls_guard_truthy _ Hv) as Ht.
  unfold Part000.callTool; cbv zeta. rewrite Ht, Hn, Hv.
  open_handler. cbn [negb String.eqb Ascii.eqb Bool.eqb].
  pass_limiter Ha. cbn [Part000.rateLimits Part000.fetched].
  rewrite Hu, Hok; cbn [negb]. rewrite Hjson. reflexivity.
Qed.

End Mappers.

(** C5 (as amended).  A scrape call answered by HTTP 400 "Bad Request"
    returns an error result whose text is
    "Error: FireCrawl API error: 400 Bad Request", a line feed and the body.
    The variant with the batch tool reads the body as text; [index.ts]
    parses it as JSON and writes it back with [JSON.stringify], and when the
    body is no JSON document the text is "Error: " and the parser's
    message. *)
Theorem C5_http_400_error_text
    (JSON_stringify : Js.value -> string)
    (envP : Part000.Env) (wP : Part000.World)
    (responseP : Mcp.Response Part000.FireCrawlResponse)
    (envI : IndexTs.Env) (wI : IndexTs.World)
    (responseI : Mcp.Response IndexTs.ScrapeResponse)
    (request : Mcp.CallToolRequest) (bodyText : string) :
  (Part000_scrapeAnswered envP request wP responseP ->
   Mcp.ok responseP = false ->
   Mcp.status responseP = 400 ->
   Mcp.statusText responseP = "Bad Request" ->
   Mcp.text_body responseP = Returned bodyText ->
   returns (Part000.callTool envP request wP)
     (Mcp.textResult
        ("Error: FireCrawl API error: 400 Bad Request" ++ Mcp.LF ++ bodyText) true)) /\
  (IndexTs_scrapeAnswered envI request wI responseI ->
   Mcp.ok responseI = false ->
   Mcp.status responseI = 400 ->
   Mcp.statusText responseI = "Bad Request" ->
   (forall errorData,
      Mcp.json responseI = Returned errorData ->
      returns (IndexTs.callTool JSON_stringify envI request wI)
        (Mcp.textResult
           ("Error: FireCrawl API error: 400 Bad Request" ++ Mcp.LF ++
            JSON_stringify errorData) true)) /\
   (forall message,
      Mcp.json responseI = Thrown message ->
      returns (IndexTs.callTool JSON_stringify envI request wI)
        (Mcp.textResult ("Error: " ++ message) true))).
Proof.
  split.
  - intros Hans Hok Hst Htx Hbody. unfold returns.
    rewrite (Part000_scrape_http_failure envP request wP responseP Hans Hok), Hbody.
    unfold Part000.apiError. rewrite Hst, Htx. reflexivity.
  - intros Hans Hok Hst Htx. unfold returns.
    rewrite (IndexTs_scrape_http_failure JSON_stringify envI request wI responseI Hans Hok).
    split.
    + intros errorData Hjson. rewrite Hjson.
      unfold IndexTs.apiError. rewrite Hst, Htx. reflexivity.
    + intros message Hjson. rewrite Hjson. reflexivity.
Qed.

(** C5, the scenario itself: HTTP 400 with the body [Invalid URL]. *)
Lemma C5_http_400_error_text_witness :
  returns (Part000.callTool (Part000_env 0 (Returned badRequest) offline)
             scrapeRequest Part000_idle)
    (Mcp.textResult
       ("Error: FireCrawl API error: 400 Bad Request" ++ Mcp.LF ++ "Invalid URL") true) /\
  returns (IndexTs.callTool (fun _ => EmptyString) (IndexTs_env 0 (Returned badRequest))
             scrapeRequest IndexTs_idle)
    (Mcp.textResult "Error: Unexpected token I in JSON at position 0" true).
Proof.
  assert (HansP : Part000_scrapeAnswered (Part000_env 0 (Returned badRequest) offline)
                    scrapeRequest Part000_idle badRequest)
    by (repeat split).
  assert (HansI : IndexTs_scrapeAnswered (IndexTs_env 0 (Returned badRequest))
                    scrapeRequest IndexTs_idle badRequest)
    by (repeat split).
  pose proof (C5_http_400_error_text (fun _ => EmptyString)
                (Part000_env 0 (Returned badRequest) offline) Part000_idle badRequest
                (IndexTs_env 0 (Returned badRequest)) IndexTs_idle badRequest
                scrapeRequest "Invalid URL") as [HP HI].
  split.
  - exact (HP HansP eq_refl eq_refl eq_refl eq_refl).
  - exact (proj2 (HI HansI eq_refl eq_refl eq_refl) _ eq_refl).
Defined.

(** C5, the claim as worded fails: the text of the result is not
    "FireCrawl API error: 400 Bad Request" and the body, it starts with
    "Error: ". *)
Lemma C5_text_is_prefixed_with_Error :
  exists r,
    returns (Part000.callTool (Part000_env 0 (Returned badRequest) offline)
               scrapeRequest Part000_idle) r /\
    Mcp.isError r = true /\
    Mcp.resultText r =
      "Error: FireCrawl API error: 400 Bad Request" ++ Mcp.LF ++ "Invalid URL" /\
    Mcp.resultText r <>
      "FireCrawl API error: 400 Bad Request" ++ Mcp.LF ++ "Invalid URL".
Proof.
  eexists. split; [reflexivity|]. repeat split. discriminate.
Qed.

(** C7 (as amended).  For a scrape answer of [index.ts] with [success] set,
    [data] present and at least one of [markdown], [html], [rawHtml] a
    non-empty string, the result is one text block holding the first
    non-empty of them in that order, trimmed, with [isError = false]. *)
Theorem C7_scrape_text_is_first_non_empty_field
    (JSON_stringify : Js.value -> string)
    (env : IndexTs.Env) (w : IndexTs.World) (request : Mcp.CallToolRequest)
    (response : Mcp.Response IndexTs.ScrapeResponse)
    (payload : IndexTs.ScrapeResponse) (d : IndexTs.ScrapeData) (c : string) :
  IndexTs_scrapeAnswered env request w response ->
  Mcp.ok response = true ->
  Mcp.json_as response = Returned payload ->
  IndexTs.scrape_success payload = true ->
  IndexTs.data payload = Some d ->
  firstNonEmpty [IndexTs.markdown d; IndexTs.html d; IndexTs.rawHtml d] = Some c ->
  returns (IndexTs.callTool JSON_stringify env request w)
    {| Mcp.content := [ {| Mcp.type := "text"; Mcp.text := Js.trim c |} ];
       Mcp.isError := false |}.
Proof.
  intros Hans Hok Hjson Hs Hd Hc. unfold returns.
  rewrite (IndexTs_scrape_mapped JSON_stringify env request w response payload d
             Hans Hok Hjson Hs Hd), Hc.
  reflexivity.
Qed.

(** C7, the scenario of the specification: a payload whose [data] holds the
    markdown [# Example] and metadata. *)
Lemma C7_scrape_text_is_first_non_empty_field_witness :
  returns (IndexTs.callTool (fun _ => EmptyString)
             (IndexTs_env 0 (Returned (scrapeAnswer (Some "# Example") None None)))
             scrapeRequest IndexTs_idle)
    {| Mcp.content := [ {| Mcp.type := "text"; Mcp.text := "# Example" |} ];
       Mcp.isError := false |}.
Proof.
  assert (Hans : IndexTs_scrapeAnswered
                   (IndexTs_env 0 (Returned (scrapeAnswer (Some "# Example") None None)))
                   scrapeRequest IndexTs_idle (scrapeAnswer (Some "# Example") None None))
    by (repeat split).
  exact (C7_scrape_text_is_first_non_empty_field (fun _ => EmptyString)
           (IndexTs_env 0 (Returned (scrapeAnswer (Some "# Example") None None)))
           IndexTs_idle scrapeRequest
           (scrapeAnswer (Some "# Example") None None)
           {| IndexTs.scrape_success := true;
              IndexTs.data := Some (scrapeData (Some "# Example") None None) |}
           (scrapeData (Some "# Example") None None) "# Example"
           Hans eq_refl eq_refl eq_refl eq_refl eq_refl).
Defined.

(** C7, the claim as worded fails: with [success] set and [data] present
    but holding no content field the result is an error, and a present but
    empty [markdown] is passed over for [html]. *)
Lemma C7_data_without_content_is_an_error :
  (forall JSON_stringify,
   exists r,
     returns (IndexTs.callTool JSON_stringify
                (IndexTs_env 0 (Returned (scrapeAnswer None None None)))
                scrapeRequest IndexTs_idle) r /\
     Mcp.isError r = true) /\
  (forall JSON_stringify,
   exists r,
     returns (IndexTs.callTool JSON_stringify
                (IndexTs_env 0 (Returned (scrapeAnswer (Some "") (Some "<p>Hi</p>") None)))
                scrapeRequest IndexTs_idle) r /\
     Mcp.resultText r = "<p>Hi</p>" /\
     Mcp.resultText r <> Js.trim "").
Proof.
  split; intros f; eexists; (split; [reflexivity|]).
  - reflexivity.
  - split; [reflexivity | discriminate].
Qed.

(** C8.  A batch call whose answer parses to a list of results and a list
    of failed URLs returns, with [isError = false], the markdown of the
    results in order joined by a blank line; the failed list does not enter
    the text. *)
Theorem C8_batch_text_joins_markdown
    (env : Part000.Env) (w : Part000.World) (request : Mcp.CallToolRequest)
    (response : Mcp.Response Part000.BatchResponse)
    (results : list Part000.FireCrawlResponse) (failed : list string) :
  Part000_batchAnswered env request w response ->
  Mcp.ok response = true ->
  Mcp.json_as response =
    Returned {| Part000.results := results; Part000.failed := failed |} ->
  returns (Part000.callTool env request w)
    {| Mcp.content :=
         [ {| Mcp.type := "text";
              Mcp.text := Js.join (Mcp.LF ++ Mcp.LF) (map Part000.markdown results) |} ];
       Mcp.isError := false |}.
Proof.
  intros Hans Hok Hjson. unfold returns.
  rewrite (Part000_batch_mapped env request w response _ Hans Hok Hjson).
  reflexivity.
Qed.

(** C8, the scenario of the specification: two results with the markdown
    [A] and [B], and one failed URL. *)
Lemma C8_batch_text_joins_markdown_witness :
  let raw :=
    Js.JObj [("results", Js.JArr [rawPage "https://example1.com" "A";
                                  rawPage "https://example2.com" "B"]);
             ("failed", Js.JArr [Js.JStr "https://example3.com"])] in
  let answer :=
    okJson raw
      {| Part000.results := [page "https://example1.com" "A";
                             page "https://example2.com" "B"];
         Part000.failed := ["https://example3.com"] |} in
  returns (Part000.callTool (Part000_env 0 offline (Returned answer))
             batchRequest Part000_idle)
    (Mcp.textResult ("A" ++ Mcp.LF ++ Mcp.LF ++ "B") false).
Proof.
  intros raw answer.
  assert (Hans : Part000_batchAnswered (Part000_env 0 offline (Returned answer))
                   batchRequest Part000_idle answer)
    by (repeat split).
  exact (C8_batch_text_joins_markdown (Part000_env 0 offline (Returned answer))
           Part000_idle batchRequest answer
           [page "https://example1.com" "A"; page "https://example2.com" "B"]
           ["https://example3.com"] Hans eq_refl eq_refl).
Defined.

(** C10.  The scrape mapper of [index.ts] takes a content field by its
    truthiness: with [success] set and [data] present, an absent or empty
    [markdown] gives way to a non-empty [html], both give way to a non-empty
    [rawHtml], and when all three are absent or empty the call fails with
    "No content received from FireCrawl API". *)
Theorem C10_content_is_chosen_by_truthiness
    (JSON_stringify : Js.value -> string)
    (env : IndexTs.Env) (w : IndexTs.World) (request : Mcp.CallToolRequest)
    (response : Mcp.Response IndexTs.ScrapeResponse)
    (payload : IndexTs.ScrapeResponse) (d : IndexTs.ScrapeData) :
  IndexTs_scrapeAnswered env request w response ->
  Mcp.ok response = true ->
  Mcp.json_as response = Returned payload ->
  IndexTs.scrape_success payload = true ->
  IndexTs.data payload = Some d ->
  let out := IndexTs.callTool JSON_stringify env request w in
  (absentOrEmpty (IndexTs.markdown d) ->
   forall h, IndexTs.html d = Some h -> h <> "" ->
   returns out (Mcp.textResult (Js.trim h) false)) /\
  (absentOrEmpty (IndexTs.markdown d) -> absentOrEmpty (IndexTs.html d) ->
   forall r, IndexTs.rawHtml d = Some r -> r <> "" ->
   returns out (Mcp.textResult (Js.trim r) false)) /\
  (absentOrEmpty (IndexTs.markdown d) -> absentOrEmpty (IndexTs.html d) ->
   absentOrEmpty (IndexTs.rawHtml d) ->
   returns out (Mcp.textResult "Error: No content received from FireCrawl API" true)).
Proof.
  intros Hans Hok Hjson Hs Hd out. subst out. unfold returns.
  rewrite (IndexTs_scrape_mapped JSON_stringify env request w response payload d
             Hans Hok Hjson Hs Hd).
  repeat split.
  - intros [Hm|Hm] h Hh Hne; rewrite Hm, Hh; cbn;
      apply String.eqb_neq in Hne; rewrite Hne; reflexivity.
  - intros [Hm|Hm] [Hh|Hh] r Hr Hne; rewrite Hm, Hh, Hr; cbn;
      apply String.eqb_neq in Hne; rewrite Hne; reflexivity.
  - intros [Hm|Hm] [Hh|Hh] [Hr|Hr]; rewrite Hm, Hh, Hr; reflexivity.
Qed.

(** C10, instances: an empty [markdown] beside [html], and a payload whose
    three content fields are present and empty. *)
Lemma C10_content_is_chosen_by_truthiness_witness :
  returns (IndexTs.callTool (fun _ => EmptyString)
             (IndexTs_env 0 (Returned (scrapeAnswer (Some "") (Some "<p>Hi</p>") None)))
             scrapeRequest IndexTs_idle)
    (Mcp.textResult "<p>Hi</p>" false) /\
  returns (IndexTs.callTool (fun _ => EmptyString)
             (IndexTs_env 0 (Returned (scrapeAnswer (Some "") (Some "") (Some ""))))
             scrapeRequest IndexTs_idle)
    (Mcp.textResult "Error: No content received from FireCrawl API" true).
Proof.
  assert (Hans : forall answer,
             IndexTs_scrapeAnswered (IndexTs_env 0 (Returned answer))
               scrapeRequest IndexTs_idle answer)
    by (intros answer; repeat split).
  split.
  - pose proof (C10_content_is_chosen_by_truthiness (fun _ => EmptyString)
                  (IndexTs_env 0 (Returned (scrapeAnswer (Some "") (Some "<p>Hi</p>") None)))
                  IndexTs_idle scrapeRequest
                  (scrapeAnswer (Some "") (Some "<p>Hi</p>") None)
                  {| IndexTs.scrape_success := true;
                     IndexTs.data := Some (scrapeData (Some "") (Some "<p>Hi</p>") None) |}
                  (scrapeData (Some "") (Some "<p>Hi</p>") None)
                  (Hans _) eq_refl eq_refl eq_refl eq_refl) as [H _].
    refine (H (or_intror eq_refl) "<p>Hi</p>" eq_refl _). discriminate.
  - pose proof (C10_content_is_chosen_by_truthiness (fun _ => EmptyString)
                  (IndexTs_env 0 (Returned (scrapeAnswer (Some "") (Some "") (Some ""))))
                  IndexTs_idle scrapeRequest
                  (scrapeAnswer (Some "") (Some "") (Some ""))
                  {| IndexTs.scrape_success := true;
                     IndexTs.data := Some (scrapeData (Some "") (Some "") (Some "")) |}
                  (scrapeData (Some "") (Some "") (Some ""))
                  (Hans _) eq_refl eq_refl eq_refl eq_refl) as (_ & _ & H).
    exact (H (or_intror eq_refl) (or_intror eq_refl) (or_intror eq_refl)).
Defined.

(* ================================================================== *)
(** ** Further properties of the rate limiters *)
(* ================================================================== *)

Section LimiterInvariants.

(** One call keeps the counters of the two-timestamp limiter in bounds. *)
Lemma Part000_inBounds_step (now : Z) (rl : Part000.RateLimits) :
  Part000_inBounds rl -> Part000_inBounds (snd (Part000.checkRateLimit now rl)).
Proof.
  unfold Part000_inBounds. intros H.
  rewrite Part000_checkRateLimit_eq; cbv zeta.
  unfold Part000_afterResets; rewrite Part000_resetWindows_eq; cbn [snd].
  cbn [Part000.second Part000.minute].
  destruct (now - Part000.lastReset (Part000.second rl) >? 1000);
    destruct (now - Part000.lastReset (Part000.minute rl) >? 60000);
    cbn [Part000.count];
    match goal with
    | |- context [(?a >=? 2) || (?b >=? 60)] =>
        destruct (Z.geb_spec a 2); destruct (Z.geb_spec b 60)
    end; cbn; lia.
Qed.

Lemma IndexTs_inBounds_step (now : Z) (rc : IndexTs.RequestCount) :
  IndexTs_inBounds rc -> IndexTs_inBounds (snd (IndexTs.checkRateLimit now rc)).
Proof.
  unfold IndexTs_inBounds. intros H.
  rewrite IndexTs_checkRateLimit_eq; cbv zeta.
  unfold IndexTs_afterResets; rewrite IndexTs_resetWindows_eq; cbn [snd].
  destruct (now - IndexTs.lastReset rc >? 1000);
    [|destruct (now - IndexTs.lastReset rc >? 60000)];
    cbn [IndexTs.second IndexTs.minute];
    match goal with
    | |- context [(?a >=? 2) || (?b >=? 60)] =>
        destruct (Z.geb_spec a 2); destruct (Z.geb_spec b 60)
    end; cbn; lia.
Qed.

(** A property one call preserves holds after any sequence of calls. *)
Lemma runCalls_invariant {S} (check : Z -> M S unit) (P : S -> Prop) :
  (forall t s, P s -> P (snd (check t s))) ->
  forall ts s, P s -> P (snd (runCalls check ts s)).
Proof.
  intros Hstep ts. induction ts as [|t ts IH]; intros s Hs.
  - exact Hs.
  - rewrite runCalls_cons; cbn [snd]. apply IH, Hstep, Hs.
Qed.

(** In [index.ts] the minute counter grows by one with each admitted call
    and changes in no other way. *)
Lemma IndexTs_minute_counts_admissions (ts : list Z) :
  forall rc : IndexTs.RequestCount,
    IndexTs.minute (snd (runCalls IndexTs.checkRateLimit ts rc)) =
    IndexTs.minute rc + admissions (fst (runCalls IndexTs.checkRateLimit ts rc)).
Proof.
  induction ts as [|t ts IH]; intros rc.
  - cbn. unfold admissions; cbn. lia.
  - rewrite runCalls_cons; cbn [fst snd]. rewrite admissions_cons, IH.
    assert (H : IndexTs.minute (snd (IndexTs.checkRateLimit t rc)) =
                IndexTs.minute rc +
                (if admitted (IndexTs.checkRateLimit t rc) then 1 else 0)).
    { pose proof (IndexTs_minute_survives_resets t rc) as Hm.
      rewrite IndexTs_checkRateLimit_eq; cbv zeta.
      destruct (_ || _); cbn; lia. }
    lia.
Qed.

End LimiterInvariants.

(** X1.  Whatever the clock reads at each call, a sequence of calls of the
    limiter with one timestamp per window keeps the second counter between
    0 and 2 and the minute counter between 0 and 60. *)
Theorem X1_two_timestamp_counters_stay_in_bounds
    (ts : list Z) (rl : Part000.RateLimits) :
  Part000_inBounds rl ->
  Part000_inBounds (snd (runCalls Part000.checkRateLimit ts rl)).
Proof.
  apply (runCalls_invariant Part000.checkRateLimit Part000_inBounds).
  intros t s. apply Part000_inBounds_step.
Qed.

Lemma X1_two_timestamp_counters_stay_in_bounds_witness :
  Part000_inBounds
    (snd (runCalls Part000.checkRateLimit [0; 0; 0; 1500; 70000]
            (Part000.rateLimits Part000_idle))).
Proof.
  apply X1_two_timestamp_counters_stay_in_bounds.
  unfold Part000_inBounds; cbn; lia.
Defined.

(** X2.  The same bounds are kept by the limiter of [index.ts]. *)
Theorem X2_index_ts_counters_stay_in_bounds
    (ts : list Z) (rc : IndexTs.RequestCount) :
  IndexTs_inBounds rc ->
  IndexTs_inBounds (snd (runCalls IndexTs.checkRateLimit ts rc)).
Proof.
  apply (runCalls_invariant IndexTs.checkRateLimit IndexTs_inBounds).
  intros t s. apply IndexTs_inBounds_step.
Qed.

Lemma X2_index_ts_counters_stay_in_bounds_witness :
  IndexTs_inBounds
    (snd (runCalls IndexTs.checkRateLimit [0; 0; 0; 1500; 70000]
            (IndexTs.requestCount IndexTs_idle))).
Proof.
  apply X2_index_ts_counters_stay_in_bounds.
  unfold IndexTs_inBounds; cbn; lia.
Defined.

(** X3.  The limiter of [index.ts] admits at most sixty calls in the life
    of the process: from the start-up state, and whatever the clock reads at
    each call, the minute counter equals the number of calls admitted so
    far and no sequence of calls has more than sixty admitted ones. *)
Theorem X3_index_ts_admits_sixty_calls_in_all (ts : list Z) :
  let run := runCalls IndexTs.checkRateLimit ts (IndexTs.requestCount IndexTs_idle) in
  IndexTs.minute (snd run) = admissions (fst run) /\
  admissions (fst run) <= 60.
Proof.
  cbv zeta.
  pose proof (IndexTs_minute_counts_admissions ts (IndexTs.requestCount IndexTs_idle)) as Hc.
  cbn [IndexTs_idle IndexTs.requestCount IndexTs.minute] in Hc.
  assert (Hb : IndexTs_inBounds (IndexTs.requestCount IndexTs_idle))
    by (unfold IndexTs_inBounds; cbn; lia).
  apply (runCalls_invariant IndexTs.checkRateLimit IndexTs_inBounds
           (fun t s => IndexTs_inBounds_step t s) ts) in Hb.
  destruct Hb as [_ Hm].
  cbn [IndexTs_idle IndexTs.requestCount] in *. lia.
Qed.

Section Bursts.

Import Part000.

(** Within the per-second window at most [2 - count] calls are admitted. *)
Lemma Part000_second_window_room (ts : list Z) (rl : RateLimits) :
  count (second rl) <= 2 ->
  (forall t, In t ts -> t - lastReset (second rl) <= 1000) ->
  admissions (fst (runCalls checkRateLimit ts rl)) <= 2 - count (second rl).
Proof.
  intros Hc Hin.
  destruct (Part000_second_window_counts ts rl Hin) as (Heq & _ & Hle).
  specialize (Hle Hc). lia.
Qed.

Lemma Part000_minute_window_room (ts : list Z) (rl : RateLimits) :
  count (minute rl) <= 60 ->
  (forall t, In t ts -> t - lastReset (minute rl) <= 60000) ->
  admissions (fst (runCalls checkRateLimit ts rl)) <= 60 - count (minute rl).
Proof.
  intros Hc Hin.
  destruct (Part000_minute_window_counts ts rl Hin) as (Heq & _ & Hle).
  specialize (Hle Hc). lia.
Qed.

(** Calls whose clock readings lie in a span of 1000 ms see at most one
    reset of the per-second window. *)
Lemma Part000_second_span (a : Z) (ts : list Z) :
  forall rl : RateLimits,
    count (second rl) <= 2 ->
    (forall t, In t ts -> a <= t <= a + 1000) ->
    admissions (fst (runCalls checkRateLimit ts rl)) <= (2 - count (second rl)) + 2.
Proof.
  induction ts as [|t ts IH]; intros rl Hc Hin.
  - cbn [runCalls fst]. unfold admissions; cbn [filter List.length Z.of_nat]. lia.
  - rewrite runCalls_cons; cbn [fst]. rewrite admissions_cons.
    assert (Ht : a <= t <= a + 1000) by (apply Hin; now left).
    destruct (Z_le_gt_dec (t - lastReset (second rl)) 1000) as [Hw|Hw].
    + destruct (Part000_within_second_window t rl Hw) as (Hadm & Hstart & Hcount).
      assert (Hc' : count (second (snd (checkRateLimit t rl))) <= 2).
      { rewrite Hcount. destruct (admitted (checkRateLimit t rl)); [|lia].
        symmetry in Hadm. apply andb_true_iff in Hadm as [Hlt _].
        apply Z.ltb_lt in Hlt. lia. }
      specialize (IH (snd (checkRateLimit t rl)) Hc'
                     (fun t' Ht' => Hin t' (or_intror Ht'))).
      rewrite Hcount in IH. lia.
    + destruct (Part000_after_second_window t rl Hw) as (_ & Hstart & Hcount).
      assert (Hroom : admissions (fst (runCalls checkRateLimit ts (snd (checkRateLimit t rl))))
                      <= 2 - count (second (snd (checkRateLimit t rl)))).
      { apply Part000_second_window_room.
        - rewrite Hcount. destruct (admitted _); lia.
        - intros t' Ht'. rewrite Hstart.
          specialize (Hin t' (or_intror Ht')). lia. }
      rewrite Hcount in Hroom. destruct (admitted (checkRateLimit t rl)); lia.
Qed.

Lemma Part000_minute_span (a : Z) (ts : list Z) :
  forall rl : RateLimits,
    count (minute rl) <= 60 ->
    (forall t, In t ts -> a <= t <= a + 60000) ->
    admissions (fst (runCalls checkRateLimit ts rl)) <= (60 - count (minute rl)) + 60.
Proof.
  induction ts as [|t ts IH]; intros rl Hc Hin.
  - cbn [runCalls fst]. unfold admissions; cbn [filter List.length Z.of_nat]. lia.
  - rewrite runCalls_cons; cbn [fst]. rewrite admissions_cons.
    assert (Ht : a <= t <= a + 60000) by (apply Hin; now left).
    destruct (Z_le_gt_dec (t - lastReset (minute rl)) 60000) as [Hw|Hw].
    + destruct (Part000_within_minute_window t rl Hw) as (Hadm & Hstart & Hcount).
      assert (Hc' : count (minute (snd (checkRateLimit t rl))) <= 60).
      { rewrite Hcount. destruct (admitted (checkRateLimit t rl)); [|lia].
        symmetry in Hadm. apply andb_true_iff in Hadm as [Hlt _].
        apply Z.ltb_lt in Hlt. lia. }
      specialize (IH (snd (checkRateLimit t rl)) Hc'
                     (fun t' Ht' => Hin t' (or_intror Ht'))).
      rewrite Hcount in IH. lia.
    + destruct (Part000_after_minute_window t rl Hw) as (_ & Hstart & Hcount).
      assert (Hroom : admissions (fst (runCalls checkRateLimit ts (snd (checkRateLimit t rl))))
                      <= 60 - count (minute (snd (checkRateLimit t rl)))).
      { apply Part000_minute_window_room.
        - rewrite Hcount. destruct (admitted _); lia.
        - intros t' Ht'. rewrite Hstart.
          specialize (Hin t' (or_intror Ht')). lia. }
      rewrite Hcount in Hroom. destruct (admitted (checkRateLimit t rl)); lia.
Qed.

End Bursts.

(** X4.  The fixed windows bound the rate at twice the ceilings: from a
    state with the counters in bounds, calls whose clock readings lie in any
    span of 1000 ms have at most 4 admitted ones, and calls in any span of
    60000 ms at most 120. *)
Theorem X4_at_most_twice_the_ceiling_in_any_span
    (a : Z) (ts : list Z) (rl : Part000.RateLimits) :
  Part000_inBounds rl ->
  ((forall t, In t ts -> a <= t <= a + 1000) ->
   admissions (fst (runCalls Part000.checkRateLimit ts rl)) <= 4) /\
  ((forall t, In t ts -> a <= t <= a + 60000) ->
   admissions (fst (runCalls Part000.checkRateLimit ts rl)) <= 120).
Proof.
  intros [[Hs0 Hs2] [Hm0 Hm60]]. split; intros Hin.
  - pose proof (Part000_second_span a ts rl Hs2 Hin). lia.
  - pose proof (Part000_minute_span a ts rl Hm60 Hin). lia.
Qed.

Lemma X4_at_most_twice_the_ceiling_in_any_span_witness :
  admissions (fst (runCalls Part000.checkRateLimit [1000; 1000; 1001; 1001; 1002]
                     (Part000.rateLimits Part000_idle))) <= 4.
Proof.
  assert (Hb : Part000_inBounds (Part000.rateLimits Part000_idle))
    by (unfold Part000_inBounds; cbn; lia).
  apply (proj1 (X4_at_most_twice_the_ceiling_in_any_span 1000
                  [1000; 1000; 1001; 1001; 1002] (Part000.rateLimits Part000_idle) Hb)).
  intros t Ht. cbn in Ht.
  repeat (destruct Ht as [Ht|Ht]; [subst t; lia|]). destruct Ht.
Defined.

(** X5.  The bound of X4 is reached: when the per-second window that began
    at [t0] is still empty and the minute counter has room for four calls,
    two calls at [t0 + 1000] and two at [t0 + 1001] are all admitted, four
    calls within two milliseconds. *)
Theorem X5_four_calls_across_a_window_boundary
    (t0 : Z) (rl : Part000.RateLimits) :
  Part000.second rl = {| Part000.count := 0; Part000.lastReset := t0 |} ->
  0 <= Part000.count (Part000.minute rl) <= 56 ->
  fst (runCalls Part000.checkRateLimit
         [t0 + 1000; t0 + 1000; t0 + 1001; t0 + 1001] rl)
  = [true; true; true; true].
Proof.
  destruct rl as [s [mc ml]]. cbn [Part000.second Part000.minute Part000.count].
  intros -> Hm.
  repeat (rewrite runCalls_cons; cbn [fst snd]).
  cbn [runCalls fst].
  repeat (rewrite Part000_checkRateLimit_eq; cbv zeta;
          unfold Part000_afterResets; rewrite Part000_resetWindows_eq;
          cbn [snd fst Part000.second Part000.minute Part000.count Part000.lastReset];
          repeat match goal with
            | |- context [?x >? ?y] =>
                destruct (Z.gtb_spec x y); try lia;
                cbn [snd fst Part000.second Part000.minute Part000.count Part000.lastReset]
            | |- context [?x >=? ?y] =>
                destruct (Z.geb_spec x y); try lia;
                cbn [snd fst Part000.second Part000.minute Part000.count
                     Part000.lastReset orb admitted]
            end).
  all: reflexivity.
Qed.

Lemma X5_four_calls_across_a_window_boundary_witness :
  fst (runCalls Part000.checkRateLimit [1000; 1000; 1001; 1001]
         (Part000.rateLimits Part000_idle))
  = [true; true; true; true].
Proof.
  apply (X5_four_calls_across_a_window_boundary 0 (Part000.rateLimits Part000_idle)).
  - reflexivity.
  - cbn; lia.
Defined.

(** X6.  A refusal lasts until a window runs out: when a call is refused,
    every later call made while neither window of the state it left has run
    out is refused as well and changes nothing. *)
Theorem X6_refused_until_a_window_runs_out
    (now later : Z) (rl : Part000.RateLimits) :
  let rl' := snd (Part000.checkRateLimit now rl) in
  admitted (Part000.checkRateLimit now rl) = false ->
  later - Part000.lastReset (Part000.second rl') <= 1000 ->
  later - Part000.lastReset (Part000.minute rl') <= 60000 ->
  Part000.checkRateLimit later rl' = (Thrown "Rate limit exceeded", rl').
Proof.
  cbv zeta. rewrite (Part000_checkRateLimit_eq now rl); cbv zeta.
  set (rl1 := Part000_afterResets now rl).
  destruct ((Part000.count (Part000.second rl1) >=? 2) ||
            (Part000.count (Part000.minute rl1) >=? 60)) eqn:E;
    cbn [admitted fst snd]; [|discriminate].
  intros _ Hs Hm.
  rewrite (Part000_checkRateLimit_eq later rl1); cbv zeta.
  destruct (Part000_windows_reset_independently later rl1) as (_ & _ & Hks & Hkm).
  assert (Hsame : Part000_afterResets later rl1 = rl1).
  { destruct (Part000_afterResets later rl1) as [s m] eqn:Er.
    cbn [Part000.second Part000.minute] in Hks, Hkm.
    rewrite (Hks Hs), (Hkm Hm). destruct rl1; reflexivity. }
  rewrite Hsame, E. reflexivity.
Qed.

Lemma X6_refused_until_a_window_runs_out_witness :
  let rl := snd (runCalls Part000.checkRateLimit [0; 0]
                   (Part000.rateLimits Part000_idle)) in
  Part000.checkRateLimit 900 (snd (Part000.checkRateLimit 5 rl)) =
  (Thrown "Rate limit exceeded", snd (Part000.checkRateLimit 5 rl)).
Proof.
  intros rl.
  apply (X6_refused_until_a_window_runs_out 5 900 rl).
  - reflexivity.
  - vm_compute. discriminate.
  - vm_compute. discriminate.
Defined.

Section IndexTsSecondWindow.

Import IndexTs.

Variable now : Z.
Variable rc : RequestCount.

(** A call within the window of the shared timestamp. *)
Lemma IndexTs_within_window :
  now - lastReset rc <= 1000 ->
  checkRateLimit now rc =
  if (second rc <? 2) && (minute rc <? 60)
  then (Returned tt,
        {| second := second rc + 1; minute := minute rc + 1; lastReset := lastReset rc |})
  else (Thrown "Rate limit exceeded", rc).
Proof.
  intros H. rewrite IndexTs_checkRateLimit_eq; cbv zeta.
  unfold IndexTs_afterResets; rewrite IndexTs_resetWindows_eq; cbn [snd].
  destruct (Z.gtb_spec (now - lastReset rc) 1000); [lia|].
  destruct (Z.gtb_spec (now - lastReset rc) 60000); [lia|].
  destruct (Z.geb_spec (second rc) 2); destruct (Z.geb_spec (minute rc) 60);
    destruct (Z.ltb_spec (second rc) 2); destruct (Z.ltb_spec (minute rc) 60);
    try lia; reflexivity.
Qed.

(** A call after it. *)
Lemma IndexTs_after_window :
  now - lastReset rc > 1000 ->
  checkRateLimit now rc =
  if minute rc <? 60
  then (Returned tt, {| second := 1; minute := minute rc + 1; lastReset := now |})
  else (Thrown "Rate limit exceeded",
        {| second := 0; minute := minute rc; lastReset := now |}).
Proof.
  intros H. rewrite IndexTs_checkRateLimit_eq; cbv zeta.
  unfold IndexTs_afterResets; rewrite IndexTs_resetWindows_eq; cbn [snd].
  destruct (Z.gtb_spec (now - lastReset rc) 1000); [|lia].
  cbn [second minute lastReset].
  destruct (Z.geb_spec (minute rc) 60); destruct (Z.ltb_spec (minute rc) 60);
    try lia; reflexivity.
Qed.

End IndexTsSecondWindow.

(** X7.  The limiter of [index.ts], in closed form.  A call no more than
    1000 ms after [lastReset] is admitted exactly when the second counter is
    below 2 and the minute counter below 60, and then both grow by one; a
    refused call changes nothing.  A call more than 1000 ms after
    [lastReset] sets [lastReset] to the clock, restarts the second counter
    and is admitted exactly when the minute counter is below 60, which it
    keeps or grows by one. *)
Theorem X7_index_ts_limiter_in_closed_form
    (now : Z) (rc : IndexTs.RequestCount) :
  (now - IndexTs.lastReset rc <= 1000 ->
   IndexTs.checkRateLimit now rc =
   if (IndexTs.second rc <? 2) && (IndexTs.minute rc <? 60)
   then (Returned tt,
         {| IndexTs.second := IndexTs.second rc + 1;
            IndexTs.minute := IndexTs.minute rc + 1;
            IndexTs.lastReset := IndexTs.lastReset rc |})
   else (Thrown "Rate limit exceeded", rc)) /\
  (now - IndexTs.lastReset rc > 1000 ->
   IndexTs.checkRateLimit now rc =
   if IndexTs.minute rc <? 60
   then (Returned tt,
         {| IndexTs.second := 1; IndexTs.minute := IndexTs.minute rc + 1;
            IndexTs.lastReset := now |})
   else (Thrown "Rate limit exceeded",
         {| IndexTs.second := 0; IndexTs.minute := IndexTs.minute rc;
            IndexTs.lastReset := now |})).
Proof.
  split.
  - apply IndexTs_within_window.
  - apply IndexTs_after_window.
Qed.

Lemma X7_index_ts_limiter_in_closed_form_witness :
  IndexTs.checkRateLimit 500 (IndexTs.requestCount IndexTs_idle) =
    (Returned tt, {| IndexTs.second := 1; IndexTs.minute := 1; IndexTs.lastReset := 0 |}) /\
  IndexTs.checkRateLimit 1500 (IndexTs.requestCount IndexTs_idle) =
    (Returned tt, {| IndexTs.second := 1; IndexTs.minute := 1; IndexTs.lastReset := 1500 |}).
Proof.
  split.
  - rewrite (proj1 (X7_index_ts_limiter_in_closed_form 500
                      (IndexTs.requestCount IndexTs_idle))); [reflexivity|].
    cbn; lia.
  - rewrite (proj2 (X7_index_ts_limiter_in_closed_form 1500
                      (IndexTs.requestCount IndexTs_idle))); [reflexivity|].
    cbn; lia.
Defined.

(* ================================================================== *)
(** ** Further properties of the dispatchers *)
(* ================================================================== *)

(** Splits on the tool a request names. *)
Ltac split_tool nm :=
  destruct (String.eqb_spec nm "fire_crawl_scrape") as [->|?];
  [|destruct (String.eqb_spec nm "fire_crawl_map") as [->|?];
    [|destruct (String.eqb_spec nm "fire_crawl_crawl") as [->|?];
      [|destruct (String.eqb_spec nm "fire_crawl_batch") as [->|?]]]].

Section Effects.

Import Js Mcp.

Variable JSON_stringify : value -> string.

(** What a call of [index.ts] does to the process state. *)
Lemma IndexTs_effect (env : IndexTs.Env) (request : CallToolRequest)
    (w : IndexTs.World) :
  let out := IndexTs.callTool JSON_stringify env request w in
  let check := IndexTs.checkRateLimit (IndexTs.now env) (IndexTs.requestCount w) in
  IndexTs.requestCount (snd out) =
    (if IndexTs_accepted request then snd check else IndexTs.requestCount w) /\
  IndexTs.fetched (snd out) =
    (if IndexTs_accepted request && admitted check
     then (IndexTs.fetched w ++ [IndexTs_post request])%list
     else IndexTs.fetched w).
Proof.
  destruct request as [nm args]. cbv zeta.
  unfold IndexTs_accepted, IndexTs_post, admitted; cbn [name arguments].
  open_handler. cbn [name arguments].
  destruct (truthy args); cbn [negb andb]; [|split; reflexivity].
  split_tool nm; cbn [String.eqb Ascii.eqb Bool.eqb andb orb];
    repeat match goal with
      | H : ?a <> ?b |- context [(?a =? ?b)%string] =>
          rewrite (proj2 (String.eqb_neq a b) H)
      end;
    cbn [andb orb];
    try (destruct (IndexTs.isScrapeOptions args));
    try (destruct (IndexTs.isMapOptions args));
    try (destruct (IndexTs.isCrawlOptions args));
    cbn [negb andb orb]; try (split; reflexivity);
    destruct (IndexTs.checkRateLimit (IndexTs.now env) (IndexTs.requestCount w))
      as [[[]|?] ?];
    cbn [fst snd IndexTs.requestCount IndexTs.fetched];
    repeat (next_case; cbn [fst snd IndexTs.requestCount IndexTs.fetched]);
    split; reflexivity.
Qed.

(** The same for the other variant. *)
Lemma Part000_effect (env : Part000.Env) (request : CallToolRequest)
    (w : Part000.World) :
  let out := Part000.callTool env request w in
  let check := Part000.checkRateLimit (Part000.now env) (Part000.rateLimits w) in
  Part000.rateLimits (snd out) =
    (if Part000_accepted request then snd check else Part000.rateLimits w) /\
  Part000.fetched (snd out) =
    (if Part000_accepted request && admitted check
     then (Part000.fetched w ++ [Part000_post request])%list
     else Part000.fetched w).
Proof.
  destruct request as [nm args]. cbv zeta.
  unfold Part000_accepted, Part000_post, admitted; cbn [name arguments].
  open_handler. cbn [name arguments].
  destruct (truthy args); cbn [negb andb]; [|split; reflexivity].
  destruct (String.eqb_spec nm "fire_crawl_scrape") as [->|?];
    [|destruct (String.eqb_spec nm "fire_crawl_batch") as [->|?]];
    cbn [String.eqb Ascii.eqb Bool.eqb andb orb];
    try (destruct (Part000.isFireCrawlScrapeArgs args));
    try (destruct (Part000.isFireCrawlBatchArgs args));
    cbn [negb andb orb]; try (split; reflexivity);
    destruct (Part000.checkRateLimit (Part000.now env) (Part000.rateLimits w))
      as [[[]|?] ?];
    cbn [fst snd Part000.rateLimits Part000.fetched];
    repeat (next_case; cbn [fst snd Part000.rateLimits Part000.fetched]);
    split; reflexivity.
Qed.

End Effects.

Section Outcomes.

Import Js Mcp.

Variable JSON_stringify : value -> string.

(** An accepted request names a registered tool. *)
Lemma IndexTs_accepted_listed (request : CallToolRequest) :
  IndexTs_accepted request = true -> In (name request) IndexTs.tools.
Proof.
  unfold IndexTs_accepted; cbv zeta. intros H.
  apply andb_true_iff in H as [_ H].
  repeat (apply orb_true_iff in H as [H|H]);
    apply andb_true_iff in H as [H _]; apply String.eqb_eq in H; rewrite H;
    cbn; auto.
Qed.

(** A call the limiter refuses, in [index.ts]. *)
Lemma IndexTs_refused (env : IndexTs.Env) (request : CallToolRequest)
    (w : IndexTs.World) :
  IndexTs_accepted request = true ->
  admitted (IndexTs.checkRateLimit (IndexTs.now env) (IndexTs.requestCount w)) = false ->
  fst (IndexTs.callTool JSON_stringify env request w) =
  Returned (textResult "Error: Rate limit exceeded" true).
Proof.
  destruct request as [nm args].
  unfold IndexTs_accepted, admitted; cbn [name arguments].
  intros Hacc Hadm.
  pose proof (IndexTs_limiter_outcomes (IndexTs.now env) (IndexTs.requestCount w)) as Hout.
  destruct (IndexTs.checkRateLimit (IndexTs.now env) (IndexTs.requestCount w))
    as [[[]|m] rc'] eqn:E; cbn [fst] in *; [discriminate|].
  destruct Hout as [Hout|Hout]; [discriminate|]. inversion Hout; subst m.
  open_handler. cbn [name arguments].
  destruct (truthy args); cbn [negb andb] in *; [|discriminate].
  split_tool nm; cbn [String.eqb Ascii.eqb Bool.eqb andb orb] in *;
    repeat match goal with
      | H : ?a <> ?b |- _ =>
          rewrite (proj2 (String.eqb_neq a b) H) in *
      end;
    cbn [andb orb] in *; rewrite ?orb_false_r in Hacc;
    try discriminate; rewrite Hacc; cbn [negb]; rewrite E; reflexivity.
Qed.

Lemma Part000_refused (env : Part000.Env) (request : CallToolRequest)
    (w : Part000.World) :
  Part000_accepted request = true ->
  admitted (Part000.checkRateLimit (Part000.now env) (Part000.rateLimits w)) = false ->
  fst (Part000.callTool env request w) =
  Returned (textResult "Error: Rate limit exceeded" true).
Proof.
  destruct request as [nm args].
  unfold Part000_accepted, admitted; cbn [name arguments].
  intros Hacc Hadm.
  pose proof (Part000_limiter_outcomes (Part000.now env) (Part000.rateLimits w)) as Hout.
  destruct (Part000.checkRateLimit (Part000.now env) (Part000.rateLimits w))
    as [[[]|m] rl'] eqn:E; cbn [fst] in *; [discriminate|].
  destruct Hout as [Hout|Hout]; [discriminate|]. inversion Hout; subst m.
  open_handler. cbn [name arguments].
  destruct (truthy args); cbn [negb andb] in *; [|discriminate].
  destruct (String.eqb_spec nm "fire_crawl_scrape") as [->|?];
    [|destruct (String.eqb_spec nm "fire_crawl_batch") as [->|?]];
    cbn [String.eqb Ascii.eqb Bool.eqb andb orb] in *;
    repeat match goal with
      | H : ?a <> ?b |- _ =>
          rewrite (proj2 (String.eqb_neq a b) H) in *
      end;
    cbn [andb orb] in *; rewrite ?orb_false_r in Hacc;
    try discriminate; rewrite Hacc; cbn [negb]; rewrite E; reflexivity.
Qed.

End Outcomes.

Section NetworkFailures.

Import Js Mcp.

Variable JSON_stringify : value -> string.

(** A POST that rejects, in [index.ts]. *)
Lemma IndexTs_fetch_rejects (env : IndexTs.Env) (request : CallToolRequest)
    (w : IndexTs.World) (message : string) :
  IndexTs_accepted request = true ->
  admitted (IndexTs.checkRateLimit (IndexTs.now env) (IndexTs.requestCount w)) = true ->
  (name request = "fire_crawl_scrape" -> IndexTs.scrape_upstream env = Thrown message) ->
  (name request = "fire_crawl_map" -> IndexTs.map_upstream env = Thrown message) ->
  (name request = "fire_crawl_crawl" -> IndexTs.crawl_upstream env = Thrown message) ->
  fst (IndexTs.callTool JSON_stringify env request w) =
  Returned (textResult ("Error: " ++ message) true).
Proof.
  destruct request as [nm args].
  unfold IndexTs_accepted, admitted; cbn [name arguments].
  intros Hacc Hadm Hs Hm Hc.
  destruct (IndexTs.checkRateLimit (IndexTs.now env) (IndexTs.requestCount w))
    as [[[]|m] rc'] eqn:E; cbn [fst] in *; [|discriminate].
  open_handler. cbn [name arguments].
  destruct (truthy args); cbn [negb andb] in *; [|discriminate].
  split_tool nm; cbn [String.eqb Ascii.eqb Bool.eqb andb orb] in *;
    repeat match goal with
      | H : ?a <> ?b |- _ =>
          rewrite (proj2 (String.eqb_neq a b) H) in *
      end;
    cbn [andb orb] in *; rewrite ?orb_false_r in Hacc;
    try discriminate; rewrite Hacc; cbn [negb]; rewrite E;
    cbn [IndexTs.requestCount IndexTs.fetched];
    rewrite ?(Hs eq_refl), ?(Hm eq_refl), ?(Hc eq_refl); reflexivity.
Qed.

Lemma Part000_fetch_rejects (env : Part000.Env) (request : CallToolRequest)
    (w : Part000.World) (message : string) :
  Part000_accepted request = true ->
  admitted (Part000.checkRateLimit (Part000.now env) (Part000.rateLimits w)) = true ->
  (name request = "fire_crawl_scrape" -> Part000.scrape_upstream env = Thrown message) ->
  (name request = "fire_crawl_batch" -> Part000.batch_upstream env = Thrown message) ->
  fst (Part000.callTool env request w) =
  Returned (textResult ("Error: " ++ message) true).
Proof.
  destruct request as [nm args].
  unfold Part000_accepted, admitted; cbn [name arguments].
  intros Hacc Hadm Hs Hb.
  destruct (Part000.checkRateLimit (Part000.now env) (Part000.rateLimits w))
    as [[[]|m] rl'] eqn:E; cbn [fst] in *; [|discriminate].
  open_handler. cbn [name arguments].
  destruct (truthy args); cbn [negb andb] in *; [|discriminate].
  destruct (String.eqb_spec nm "fire_crawl_scrape") as [->|?];
    [|destruct (String.eqb_spec nm "fire_crawl_batch") as [->|?]];
    cbn [String.eqb Ascii.eqb Bool.eqb andb orb] in *;
    repeat match goal with
      | H : ?a <> ?b |- _ =>
          rewrite (proj2 (String.eqb_neq a b) H) in *
      end;
    cbn [andb orb] in *; rewrite ?orb_false_r in Hacc;
    try discriminate; rewrite Hacc; cbn [negb]; rewrite E;
    cbn [Part000.rateLimits Part000.fetched];
    rewrite ?(Hs eq_refl), ?(Hb eq_refl); reflexivity.
Qed.

(** A bag that is not truthy. *)
Lemma IndexTs_no_arguments (env : IndexTs.Env) (request : CallToolRequest)
    (w : IndexTs.World) :
  truthy (arguments request) = false ->
  IndexTs.callTool JSON_stringify env request w =
  (Returned (textResult "Error: No arguments provided" true), w).
Proof.
  intros H. unfold IndexTs.callTool, try_catch; cbv zeta. rewrite H. reflexivity.
Qed.

Lemma Part000_no_arguments (env : Part000.Env) (request : CallToolRequest)
    (w : Part000.World) :
  truthy (arguments request) = false ->
  Part000.callTool env request w =
  (Returned (textResult "Error: No arguments provided" true), w).
Proof.
  intros H. unfold Part000.callTool, try_catch; cbv zeta. rewrite H. reflexivity.
Qed.

End NetworkFailures.

(** X8.  A missing, null or otherwise falsy argument bag is answered with
    "Error: No arguments provided" before the tool name is looked at, so
    also for a name that is not registered; the process state stays as it
    was.  Both variants. *)
Theorem X8_falsy_bag_is_answered_first
    (JSON_stringify : Js.value -> string)
    (envI : IndexTs.Env) (wI : IndexTs.World)
    (envP : Part000.Env) (wP : Part000.World)
    (request : Mcp.CallToolRequest) :
  Js.truthy (Mcp.arguments request) = false ->
  IndexTs.callTool JSON_stringify envI request wI =
    (Returned (Mcp.textResult "Error: No arguments provided" true), wI) /\
  Part000.callTool envP request wP =
    (Returned (Mcp.textResult "Error: No arguments provided" true), wP).
Proof.
  intros H. split.
  - apply IndexTs_no_arguments, H.
  - apply Part000_no_arguments, H.
Qed.

Lemma X8_falsy_bag_is_answered_first_witness :
  IndexTs.callTool (fun _ => EmptyString) (IndexTs_env 0 offline)
    {| Mcp.name := "fire_crawl_search"; Mcp.arguments := Js.JUndefined |} IndexTs_idle =
  (Returned (Mcp.textResult "Error: No arguments provided" true), IndexTs_idle).
Proof.
  exact (proj1 (X8_falsy_bag_is_answered_first (fun _ => EmptyString)
                  (IndexTs_env 0 offline) IndexTs_idle
                  (Part000_env 0 offline offline) Part000_idle
                  {| Mcp.name := "fire_crawl_search"; Mcp.arguments := Js.JUndefined |}
                  eq_refl)).
Defined.

(** X9.  A call that passes validation and is refused by the limiter
    returns "Error: Rate limit exceeded", sends no request, and leaves in
    the limiter only the window resets the check made.  Both variants, all
    tools. *)
Theorem X9_refused_calls_send_nothing
    (JSON_stringify : Js.value -> string)
    (envI : IndexTs.Env) (wI : IndexTs.World)
    (envP : Part000.Env) (wP : Part000.World)
    (request : Mcp.CallToolRequest) :
  let outI := IndexTs.callTool JSON_stringify envI request wI in
  let outP := Part000.callTool envP request wP in
  (IndexTs_accepted request = true ->
   admitted (IndexTs.checkRateLimit (IndexTs.now envI) (IndexTs.requestCount wI)) = false ->
   fst outI = Returned (Mcp.textResult "Error: Rate limit exceeded" true) /\
   IndexTs.fetched (snd outI) = IndexTs.fetched wI /\
   IndexTs.requestCount (snd outI) =
     IndexTs_afterResets (IndexTs.now envI) (IndexTs.requestCount wI)) /\
  (Part000_accepted request = true ->
   admitted (Part000.checkRateLimit (Part000.now envP) (Part000.rateLimits wP)) = false ->
   fst outP = Returned (Mcp.textResult "Error: Rate limit exceeded" true) /\
   Part000.fetched (snd outP) = Part000.fetched wP /\
   Part000.rateLimits (snd outP) =
     Part000_afterResets (Part000.now envP) (Part000.rateLimits wP)).
Proof.
  cbv zeta. split; intros Hacc Hadm.
  - split; [apply IndexTs_refused; assumption|].
    destruct (IndexTs_effect JSON_stringify envI request wI) as [Hl Hf].
    rewrite Hacc in Hl, Hf. rewrite Hadm in Hf. cbn [andb] in Hf.
    split; [exact Hf|]. rewrite Hl.
    unfold admitted in Hadm. revert Hadm.
    rewrite IndexTs_checkRateLimit_eq; cbv zeta.
    destruct (_ || _); cbn; [reflexivity | discriminate].
  - split; [apply Part000_refused; assumption|].
    destruct (Part000_effect envP request wP) as [Hl Hf].
    rewrite Hacc in Hl, Hf. rewrite Hadm in Hf. cbn [andb] in Hf.
    split; [exact Hf|]. rewrite Hl.
    unfold admitted in Hadm. revert Hadm.
    rewrite Part000_checkRateLimit_eq; cbv zeta.
    destruct (_ || _); cbn; [reflexivity | discriminate].
Qed.

(** X9, an instance: the third scrape call of one millisecond. *)
Lemma X9_refused_calls_send_nothing_witness :
  let full :=
    {| Part000.rateLimits :=
         snd (runCalls Part000.checkRateLimit [0; 0] (Part000.rateLimits Part000_idle));
       Part000.fetched := [] |} in
  fst (Part000.callTool (Part000_env 0 offline offline) scrapeRequest full) =
  Returned (Mcp.textResult "Error: Rate limit exceeded" true).
Proof.
  intros full.
  exact (proj1 (proj2 (X9_refused_calls_send_nothing (fun _ => EmptyString)
                         (IndexTs_env 0 offline) IndexTs_idle
                         (Part000_env 0 offline offline) full scrapeRequest)
                  eq_refl eq_refl)).
Defined.

(** X10.  What a tool call does to the process state depends on the request
    and the limiter alone, never on how the network answers.  The limiter is
    run exactly when the request passes validation, and one POST is logged,
    to the tool's endpoint and after the calls logged before, exactly when
    the limiter admits the call as well.  Both variants. *)
Theorem X10_effect_of_a_call_on_the_process_state
    (JSON_stringify : Js.value -> string)
    (envI : IndexTs.Env) (wI : IndexTs.World)
    (envP : Part000.Env) (wP : Part000.World)
    (request : Mcp.CallToolRequest) :
  let outI := IndexTs.callTool JSON_stringify envI request wI in
  let checkI := IndexTs.checkRateLimit (IndexTs.now envI) (IndexTs.requestCount wI) in
  let outP := Part000.callTool envP request wP in
  let checkP := Part000.checkRateLimit (Part000.now envP) (Part000.rateLimits wP) in
  IndexTs.requestCount (snd outI) =
    (if IndexTs_accepted request then snd checkI else IndexTs.requestCount wI) /\
  IndexTs.fetched (snd outI) =
    (if IndexTs_accepted request && admitted checkI
     then (IndexTs.fetched wI ++ [IndexTs_post request])%list
     else IndexTs.fetched wI) /\
  Part000.rateLimits (snd outP) =
    (if Part000_accepted request then snd checkP else Part000.rateLimits wP) /\
  Part000.fetched (snd outP) =
    (if Part000_accepted request && admitted checkP
     then (Part000.fetched wP ++ [Part000_post request])%list
     else Part000.fetched wP).
Proof.
  cbv zeta.
  destruct (IndexTs_effect JSON_stringify envI request wI) as [H1 H2].
  destruct (Part000_effect envP request wP) as [H3 H4].
  repeat split; assumption.
Qed.

(** X11.  When the POST of an admitted call rejects with a message, the
    result is "Error: " and that message, and the call has still taken its
    place in both counters.  Both variants, whichever tool the request
    names. *)
Theorem X11_network_failure_is_reported_and_counted
    (JSON_stringify : Js.value -> string)
    (envI : IndexTs.Env) (wI : IndexTs.World)
    (envP : Part000.Env) (wP : Part000.World)
    (request : Mcp.CallToolRequest) (message : string) :
  let outI := IndexTs.callTool JSON_stringify envI request wI in
  let outP := Part000.callTool envP request wP in
  (IndexTs_accepted request = true ->
   admitted (IndexTs.checkRateLimit (IndexTs.now envI) (IndexTs.requestCount wI)) = true ->
   (Mcp.name request = "fire_crawl_scrape" ->
      IndexTs.scrape_upstream envI = Thrown message) ->
   (Mcp.name request = "fire_crawl_map" ->
      IndexTs.map_upstream envI = Thrown message) ->
   (Mcp.name request = "fire_crawl_crawl" ->
      IndexTs.crawl_upstream envI = Thrown message) ->
   fst outI = Returned (Mcp.textResult ("Error: " ++ message) true) /\
   IndexTs.requestCount (snd outI) =
     snd (IndexTs.checkRateLimit (IndexTs.now envI) (IndexTs.requestCount wI))) /\
  (Part000_accepted request = true ->
   admitted (Part000.checkRateLimit (Part000.now envP) (Part000.rateLimits wP)) = true ->
   (Mcp.name request = "fire_crawl_scrape" ->
      Part000.scrape_upstream envP = Thrown message) ->
   (Mcp.name request = "fire_crawl_batch" ->
      Part000.batch_upstream envP = Thrown message) ->
   fst outP = Returned (Mcp.textResult ("Error: " ++ message) true) /\
   Part000.rateLimits (snd outP) =
     snd (Part000.checkRateLimit (Part000.now envP) (Part000.rateLimits wP))).
Proof.
  cbv zeta. split.
  - intros Hacc Hadm Hs Hm Hc. split.
    + apply IndexTs_fetch_rejects; auto.
    + destruct (IndexTs_effect JSON_stringify envI request wI) as [Hl _].
      rewrite Hacc in Hl. exact Hl.
  - intros Hacc Hadm Hs Hb. split.
    + apply Part000_fetch_rejects; auto.
    + destruct (Part000_effect envP request wP) as [Hl _].
      rewrite Hacc in Hl. exact Hl.
Qed.

(** X11, an instance: a scrape call while the network is down. *)
Lemma X11_network_failure_is_reported_and_counted_witness :
  fst (IndexTs.callTool (fun _ => EmptyString) (IndexTs_env 0 offline)
         scrapeRequest IndexTs_idle) =
    Returned (Mcp.textResult "Error: fetch failed" true) /\
  IndexTs.requestCount
    (snd (IndexTs.callTool (fun _ => EmptyString) (IndexTs_env 0 offline)
            scrapeRequest IndexTs_idle)) =
    {| IndexTs.second := 1; IndexTs.minute := 1; IndexTs.lastReset := 0 |}.
Proof.
  exact (proj1 (X11_network_failure_is_reported_and_counted (fun _ => EmptyString)
                  (IndexTs_env 0 offline) IndexTs_idle
                  (Part000_env 0 offline offline) Part000_idle
                  scrapeRequest "fetch failed")
           eq_refl eq_refl (fun _ => eq_refl) (fun _ => eq_refl) (fun _ => eq_refl)).
Defined.

(** X12.  The dispatcher of [index.ts] and its tool list agree: for a truthy
    bag, the answer is the "Unknown tool: <name>" error exactly when the
    name is not among the tools the list handler returns. *)
Theorem X12_unknown_tool_answer_iff_not_listed
    (JSON_stringify : Js.value -> string)
    (env : IndexTs.Env) (w : IndexTs.World) (request : Mcp.CallToolRequest) :
  Js.truthy (Mcp.arguments request) = true ->
  (~ In (Mcp.name request) IndexTs.tools <->
   fst (IndexTs.callTool JSON_stringify env request w) =
   Returned (Mcp.textResult ("Unknown tool: " ++ Mcp.name request) true)).
Proof.
  intros Ht. split.
  - intros H. unfold IndexTs.callTool, try_catch; cbv zeta. rewrite Ht.
    assert (H1 : (Mcp.name request =? "fire_crawl_scrape")%string = false)
      by (apply String.eqb_neq; intros E; apply H; rewrite E; cbn; auto).
    assert (H2 : (Mcp.name request =? "fire_crawl_map")%string = false)
      by (apply String.eqb_neq; intros E; apply H; rewrite E; cbn; auto).
    assert (H3 : (Mcp.name request =? "fire_crawl_crawl")%string = false)
      by (apply String.eqb_neq; intros E; apply H; rewrite E; cbn; auto).
    cbn [negb]. rewrite H1, H2, H3. reflexivity.
  - intros H.
    destruct (IndexTs_error_texts JSON_stringify env request w _ H eq_refl)
      as [Hp|[Hn _]]; [discriminate Hp | exact Hn].
Qed.

Lemma X12_unknown_tool_answer_iff_not_listed_witness :
  fst (IndexTs.callTool (fun _ => EmptyString) (IndexTs_env 0 offline)
         unknownRequest IndexTs_idle) =
  Returned (Mcp.textResult "Unknown tool: fire_crawl_search" true).
Proof.
  apply (proj1 (X12_unknown_tool_answer_iff_not_listed (fun _ => EmptyString)
                  (IndexTs_env 0 offline) IndexTs_idle unknownRequest eq_refl)).
  cbn. intros [E|[E|[E|[]]]]; discriminate E.
Defined.

(* ================================================================== *)
(** ** Further properties of the response mappers *)
(* ================================================================== *)

Section MoreMappers.

Import Js Mcp.

Variable JSON_stringify : value -> string.

(** The map tool of [index.ts] on an HTTP success. *)
Lemma IndexTs_map_mapped (env : IndexTs.Env) (request : CallToolRequest)
    (w : IndexTs.World) (response : Response IndexTs.MapResponse) :
  IndexTs_mapAnswered env request w response ->
  ok response = true ->
  fst (IndexTs.callTool JSON_stringify env request w) =
  Returned
    match json_as response with
    | Returned payload =>
        match IndexTs.map_success payload, IndexTs.links payload with
        | true, Some ls => textResult (join LF ls) false
        | _, _ => textResult "Error: Invalid response from FireCrawl API" true
        end
    | Thrown message => textResult ("Error: " ++ message) true
    end.
Proof.
  intros (Hn & Hv & Ha & Hu) Hok.
  pose proof (url_guard_truthy _ Hv) as Ht.
  unfold IndexTs.callTool; cbv zeta. rewrite Ht, Hn, Hv.
  open_handler. cbn [negb String.eqb Ascii.eqb Bool.eqb].
  pass_limiter Ha. cbn [IndexTs.requestCount IndexTs.fetched].
  rewrite Hu, Hok; cbn [negb].
  destruct (json_as response) as [payload|m]; [|reflexivity].
  destruct (IndexTs.map_success payload), (IndexTs.links payload); reflexivity.
Qed.

(** The crawl tool of [index.ts] on an HTTP success. *)
Lemma IndexTs_crawl_mapped (env : IndexTs.Env) (request : CallToolRequest)
    (w : IndexTs.World) (response : Response IndexTs.CrawlResponse) :
  IndexTs_crawlAnswered env request w response ->
  ok response = true ->
  fst (IndexTs.callTool JSON_stringify env request w) =
  Returned
    match json_as response with
    | Returned payload =>
        if IndexTs.crawl_success payload && truthy_field (IndexTs.id payload)
        then textResult
               ("Started crawl " ++
                match IndexTs.id payload with Some i => i | None => "" end ++
                " for " ++ IndexTs.url payload) false
        else textResult "Error: Invalid response from FireCrawl API" true
    | Thrown message => textResult ("Error: " ++ message) true
    end.
Proof.
  intros (Hn & Hv & Ha & Hu) Hok.
  pose proof (url_guard_truthy _ Hv) as Ht.
  unfold IndexTs.callTool; cbv zeta. rewrite Ht, Hn, Hv.
  open_handler. cbn [negb String.eqb Ascii.eqb Bool.eqb].
  pass_limiter Ha. cbn [IndexTs.requestCount IndexTs.fetched].
  rewrite Hu, Hok; cbn [negb].
  destruct (json_as response) as [payload|m]; [|reflexivity].
  destruct (IndexTs.crawl_success payload), (IndexTs.id payload) as [i|];
    cbn [andb truthy_field]; try reflexivity.
  destruct (negb (i =? "")%string); reflexivity.
Qed.

(** The scrape tool of [index.ts] on an HTTP success whose payload is not
    usable, or whose body does not parse. *)
Lemma IndexTs_scrape_unusable (env : IndexTs.Env) (request : CallToolRequest)
    (w : IndexTs.World) (response : Response IndexTs.ScrapeResponse) :
  IndexTs_scrapeAnswered env request w response ->
  ok response = true ->
  match json_as response with
  | Returned payload =>
      IndexTs.scrape_success payload = false \/ IndexTs.data payload = None ->
      fst (IndexTs.callTool JSON_stringify env request w) =
      Returned (textResult "Error: Invalid response from FireCrawl API" true)
  | Thrown message =>
      fst (IndexTs.callTool JSON_stringify env request w) =
      Returned (textResult ("Error: " ++ message) true)
  end.
Proof.
  intros (Hn & Hv & Ha & Hu) Hok.
  pose proof (url_guard_truthy _ Hv) as Ht.
  unfold IndexTs.callTool; cbv zeta. rewrite Ht, Hn, Hv.
  open_handler. cbn [negb String.eqb Ascii.eqb Bool.eqb].
  pass_limiter Ha. cbn [IndexTs.requestCount IndexTs.fetched].
  rewrite Hu, Hok; cbn [negb].
  destruct (json_as response) as [payload|m]; [|reflexivity].
  intros [H|H]; rewrite H; [reflexivity|].
  destruct (IndexTs.scrape_success payload); reflexivity.
Qed.

(** The scrape tool of the other variant on an HTTP success. *)
Lemma Part000_scrape_mapped (env : Part000.Env) (request : CallToolRequest)
    (w : Part000.World) (response : Response Part000.FireCrawlResponse) :
  Part000_scrapeAnswered env request w response ->
  ok response = true ->
  fst (Part000.callTool env request w) =
  Returned
    match json response with
    | Returned JNull =>
        textResult "Error: Cannot read properties of null (reading 'markdown')" true
    | Returned JUndefined =>
        textResult "Error: Cannot read properties of undefined (reading 'markdown')" true
    | Returned raw => uncheckedResult (get "markdown" raw) false
    | Thrown message => textResult ("Error: " ++ message) true
    end.
Proof.
  intros (Hn & Hv & Ha & Hu) Hok.
  pose proof (url_guard_truthy _ Hv) as Ht.
  unfold Part000.callTool; cbv zeta. rewrite Ht, Hn, Hv.
  open_handler. cbn [negb String.eqb Ascii.eqb Bool.eqb].
  pass_limiter Ha. cbn [Part000.rateLimits Part000.fetched].
  rewrite Hu, Hok; cbn [negb].
  destruct (json response) as [[]|]; reflexivity.
Qed.

(** HTTP failures of the map and crawl tools and of the batch tool. *)
Lemma IndexTs_map_http_failure (env : IndexTs.Env) (request : CallToolRequest)
    (w : IndexTs.World) (response : Response IndexTs.MapResponse) :
  IndexTs_mapAnswered env request w response ->
  ok response = false ->
  fst (IndexTs.callTool JSON_stringify env request w) =
  Returned
    match json response with
    | Returned errorData =>
        textResult ("Error: " ++ IndexTs.apiError JSON_stringify response errorData) true
    | Thrown message => textResult ("Error: " ++ message) true
    end.
Proof.
  intros (Hn & Hv & Ha & Hu) Hok.
  pose proof (url_guard_truthy _ Hv) as Ht.
  unfold IndexTs.callTool; cbv zeta. rewrite Ht, Hn, Hv.
  open_handler. cbn [negb String.eqb Ascii.eqb Bool.eqb].
  pass_limiter Ha. cbn [IndexTs.requestCount IndexTs.fetched].
  rewrite Hu, Hok; cbn [negb].
  destruct (json response); reflexivity.
Qed.

Lemma IndexTs_crawl_http_failure (env : IndexTs.Env) (request : CallToolRequest)
    (w : IndexTs.World) (response : Response IndexTs.CrawlResponse) :
  IndexTs_crawlAnswered env request w response ->
  ok response = false ->
  fst (IndexTs.callTool JSON_stringify env request w) =
  Returned
    match json response with
    | Returned errorData =>
        textResult ("Error: " ++ IndexTs.apiError JSON_stringify response errorData) true
    | Thrown message => textResult ("Error: " ++ message) true
    end.
Proof.
  intros (Hn & Hv & Ha & Hu) Hok.
  pose proof (url_guard_truthy _ Hv) as Ht.
  unfold IndexTs.callTool; cbv zeta. rewrite Ht, Hn, Hv.
  open_handler. cbn [negb String.eqb Ascii.eqb Bool.eqb].
  pass_limiter Ha. cbn [IndexTs.requestCount IndexTs.fetched].
  rewrite Hu, Hok; cbn [negb].
  destruct (json response); reflexivity.
Qed.

Lemma Part000_batch_http_failure (env : Part000.Env) (request : CallToolRequest)
    (w : Part000.World) (response : Response Part000.BatchResponse) :
  Part000_batchAnswered env request w response ->
  ok response = false ->
  fst (Part000.callTool env request w) =
  Returned
    match text_body response with
    | Returned bodyText =>
        textResult ("Error: " ++ Part000.apiError response bodyText) true
    | Thrown message => textResult ("Error: " ++ message) true
    end.
Proof.
  intros (Hn & Hv & Ha & Hu) Hok.
  pose proof (urls_guard_truthy _ Hv) as Ht.
  unfold Part000.callTool; cbv zeta. rewrite Ht, Hn, Hv.
  open_handler. cbn [negb String.eqb Ascii.eqb Bool.eqb].
  pass_limiter Ha. cbn [Part000.rateLimits Part000.fetched].
  rewrite Hu, Hok; cbn [negb].
  destruct (text_body response); reflexivity.
Qed.

End MoreMappers.

Section Trimming.

Import Js.

Lemma trimStart_not_startsWithSpace (s : string) :
  startsWithSpace (trimStart s) = false.
Proof.
  induction s as [|c s IH]; [reflexivity|].
  cbn [trimStart]. destruct (is_white_space c) eqn:E; [exact IH|].
  cbn [startsWithSpace]. exact E.
Qed.

Lemma trimEnd_keeps_start (s : string) :
  startsWithSpace s = false -> startsWithSpace (trimEnd s) = false.
Proof.
  destruct s as [|c s]; [reflexivity|].
  cbn [startsWithSpace trimEnd]. intros E. rewrite E. cbn [andb startsWithSpace].
  exact E.
Qed.

Lemma trimEnd_not_endsWithSpace (s : string) :
  endsWithSpace (trimEnd s) = false.
Proof.
  induction s as [|c s IH]; [reflexivity|].
  cbn [trimEnd].
  destruct (trimEnd s) as [|d r] eqn:Er.
  - cbn [String.eqb]. rewrite andb_true_r.
    destruct (is_white_space c) eqn:E; [reflexivity|].
    cbn [endsWithSpace]. exact E.
  - cbn [String.eqb]. rewrite andb_false_r. cbn [endsWithSpace] in *. exact IH.
Qed.

Lemma trimStart_allSpace (s : string) :
  allSpace s = true -> trimStart s = EmptyString.
Proof.
  induction s as [|c s IH]; [reflexivity|].
  cbn [allSpace trimStart]. intros H. apply andb_true_iff in H as [Hc Hs].
  rewrite Hc. exact (IH Hs).
Qed.

Lemma trimStart_fixed (s : string) :
  startsWithSpace s = false -> trimStart s = s.
Proof.
  destruct s as [|c s]; [reflexivity|].
  cbn [startsWithSpace trimStart]. intros E. rewrite E. reflexivity.
Qed.

Lemma trimEnd_fixed (s : string) :
  endsWithSpace s = false -> trimEnd s = s.
Proof.
  induction s as [|c s IH]; [reflexivity|].
  destruct s as [|d r].
  - cbn. intros E. rewrite E. reflexivity.
  - intros E. change (endsWithSpace (String d r) = false) in E.
    cbn [trimEnd] in *. rewrite (IH E).
    cbn [String.eqb]. rewrite andb_false_r. reflexivity.
Qed.

(** What [trim] returns neither starts nor ends with white space; white
    space alone trims to the empty string, and a string with no white space
    at either end is returned as it is. *)
Lemma trim_spec (s : string) :
  startsWithSpace (trim s) = false /\
  endsWithSpace (trim s) = false /\
  (allSpace s = true -> trim s = EmptyString) /\
  (startsWithSpace s = false -> endsWithSpace s = false -> trim s = s).
Proof.
  unfold trim. repeat split.
  - apply trimEnd_keeps_start, trimStart_not_startsWithSpace.
  - apply trimEnd_not_endsWithSpace.
  - intros H. rewrite (trimStart_allSpace s H). reflexivity.
  - intros Hs He. rewrite (trimStart_fixed s Hs). apply trimEnd_fixed, He.
Qed.

End Trimming.

(** X13.  The map tool of [index.ts]: with [success] set and [links]
    present the result is the links joined by line feeds with
    [isError = false], an empty list giving an empty text; with [success]
    unset or [links] absent it is "Error: Invalid response from FireCrawl
    API". *)
Theorem X13_map_tool_joins_links
    (JSON_stringify : Js.value -> string)
    (env : IndexTs.Env) (w : IndexTs.World) (request : Mcp.CallToolRequest)
    (response : Mcp.Response IndexTs.MapResponse) (payload : IndexTs.MapResponse) :
  IndexTs_mapAnswered env request w response ->
  Mcp.ok response = true ->
  Mcp.json_as response = Returned payload ->
  let out := IndexTs.callTool JSON_stringify env request w in
  (IndexTs.map_success payload = true ->
   forall ls, IndexTs.links payload = Some ls ->
   returns out (Mcp.textResult (Js.join Mcp.LF ls) false)) /\
  (IndexTs.map_success payload = true ->
   IndexTs.links payload = Some [] ->
   returns out (Mcp.textResult "" false)) /\
  (IndexTs.map_success payload = false \/ IndexTs.links payload = None ->
   returns out (Mcp.textResult "Error: Invalid response from FireCrawl API" true)).
Proof.
  intros Hans Hok Hjson out. subst out. unfold returns.
  rewrite (IndexTs_map_mapped JSON_stringify env request w response Hans Hok), Hjson.
  repeat split.
  - intros Hs ls Hl. rewrite Hs, Hl. reflexivity.
  - intros Hs Hl. rewrite Hs, Hl. reflexivity.
  - intros [H|H]; rewrite H; [reflexivity|].
    destruct (IndexTs.map_success payload); reflexivity.
Qed.

Lemma X13_map_tool_joins_links_witness :
  let request := {| Mcp.name := "fire_crawl_map";
                    Mcp.arguments := Js.JObj [("url", Js.JStr "https://example.com")] |} in
  let payload := {| IndexTs.map_success := true;
                    IndexTs.links := Some ["https://example.com/a";
                                           "https://example.com/b"] |} in
  let answer :=
    okJson (Js.JObj [("success", Js.JBool true);
                     ("links", Js.JArr [Js.JStr "https://example.com/a";
                                        Js.JStr "https://example.com/b"])])
      payload in
  let env := {| IndexTs.now := 0; IndexTs.scrape_upstream := offline;
                IndexTs.map_upstream := Returned answer;
                IndexTs.crawl_upstream := offline |} in
  returns (IndexTs.callTool (fun _ => EmptyString) env request IndexTs_idle)
    (Mcp.textResult ("https://example.com/a" ++ Mcp.LF ++ "https://example.com/b") false).
Proof.
  intros request payload answer env.
  assert (Hans : IndexTs_mapAnswered env request IndexTs_idle answer) by (repeat split).
  exact (proj1 (X13_map_tool_joins_links (fun _ => EmptyString) env IndexTs_idle request
                  answer payload Hans eq_refl eq_refl) eq_refl _ eq_refl).
Defined.

(** X14.  The crawl tool of [index.ts]: with [success] set and a non-empty
    [id] the result is "Started crawl <id> for <url>" with
    [isError = false]; with [success] unset, or [id] absent or empty, it is
    "Error: Invalid response from FireCrawl API". *)
Theorem X14_crawl_tool_reports_the_job
    (JSON_stringify : Js.value -> string)
    (env : IndexTs.Env) (w : IndexTs.World) (request : Mcp.CallToolRequest)
    (response : Mcp.Response IndexTs.CrawlResponse) (payload : IndexTs.CrawlResponse) :
  IndexTs_crawlAnswered env request w response ->
  Mcp.ok response = true ->
  Mcp.json_as response = Returned payload ->
  let out := IndexTs.callTool JSON_stringify env request w in
  (IndexTs.crawl_success payload = true ->
   forall i, IndexTs.id payload = Some i -> i <> "" ->
   returns out
     (Mcp.textResult ("Started crawl " ++ i ++ " for " ++ IndexTs.url payload) false)) /\
  (IndexTs.crawl_success payload = false \/ absentOrEmpty (IndexTs.id payload) ->
   returns out (Mcp.textResult "Error: Invalid response from FireCrawl API" true)).
Proof.
  intros Hans Hok Hjson out. subst out. unfold returns.
  rewrite (IndexTs_crawl_mapped JSON_stringify env request w response Hans Hok), Hjson.
  split.
  - intros Hs i Hi Hne. rewrite Hs, Hi. cbn [andb Js.truthy_field].
    apply String.eqb_neq in Hne. rewrite Hne. reflexivity.
  - intros [H|[H|H]]; rewrite H; cbn [andb Js.truthy_field]; try reflexivity;
      destruct (IndexTs.crawl_success payload); reflexivity.
Qed.

Lemma X14_crawl_tool_reports_the_job_witness :
  let request := {| Mcp.name := "fire_crawl_crawl";
                    Mcp.arguments := Js.JObj [("url", Js.JStr "https://example.com")] |} in
  let payload := {| IndexTs.crawl_success := true; IndexTs.id := Some "job-1";
                    IndexTs.url := "https://api.firecrawl.dev/v1/crawl/job-1" |} in
  let answer :=
    okJson (Js.JObj [("success", Js.JBool true); ("id", Js.JStr "job-1");
                     ("url", Js.JStr "https://api.firecrawl.dev/v1/crawl/job-1")])
      payload in
  let env := {| IndexTs.now := 0; IndexTs.scrape_upstream := offline;
                IndexTs.map_upstream := offline;
                IndexTs.crawl_upstream := Returned answer |} in
  returns (IndexTs.callTool (fun _ => EmptyString) env request IndexTs_idle)
    (Mcp.textResult "Started crawl job-1 for https://api.firecrawl.dev/v1/crawl/job-1" false).
Proof.
  intros request payload answer env.
  assert (Hans : IndexTs_crawlAnswered env request IndexTs_idle answer) by (repeat split).
  refine (proj1 (X14_crawl_tool_reports_the_job (fun _ => EmptyString) env IndexTs_idle
                   request answer payload Hans eq_refl eq_refl) eq_refl "job-1" eq_refl _).
  discriminate.
Defined.

(** X15.  The scrape tool of [index.ts] on an HTTP success it cannot use:
    a payload with [success] unset or without [data] gives
    "Error: Invalid response from FireCrawl API", whatever else it holds,
    and a body that does not parse gives "Error: " and the parser's
    message. *)
Theorem X15_scrape_rejects_unusable_payloads
    (JSON_stringify : Js.value -> string)
    (env : IndexTs.Env) (w : IndexTs.World) (request : Mcp.CallToolRequest)
    (response : Mcp.Response IndexTs.ScrapeResponse) :
  IndexTs_scrapeAnswered env request w response ->
  Mcp.ok response = true ->
  let out := IndexTs.callTool JSON_stringify env request w in
  (forall payload,
     Mcp.json_as response = Returned payload ->
     IndexTs.scrape_success payload = false \/ IndexTs.data payload = None ->
     returns out (Mcp.textResult "Error: Invalid response from FireCrawl API" true)) /\
  (forall message,
     Mcp.json_as response = Thrown message ->
     returns out (Mcp.textResult ("Error: " ++ message) true)).
Proof.
  intros Hans Hok out. subst out. unfold returns.
  pose proof (IndexTs_scrape_unusable JSON_stringify env request w response Hans Hok) as H.
  split.
  - intros payload Hjson Hbad. rewrite Hjson in H. exact (H Hbad).
  - intros message Hjson. rewrite Hjson in H. exact H.
Qed.

Lemma X15_scrape_rejects_unusable_payloads_witness :
  let payload := {| IndexTs.scrape_success := false;
                    IndexTs.data := Some (scrapeData (Some "# Example") None None) |} in
  let answer := okJson (Js.JObj [("success", Js.JBool false)]) payload in
  returns (IndexTs.callTool (fun _ => EmptyString) (IndexTs_env 0 (Returned answer))
             scrapeRequest IndexTs_idle)
    (Mcp.textResult "Error: Invalid response from FireCrawl API" true).
Proof.
  intros payload answer.
  assert (Hans : IndexTs_scrapeAnswered (IndexTs_env 0 (Returned answer))
                   scrapeRequest IndexTs_idle answer) by (repeat split).
  exact (proj1 (X15_scrape_rejects_unusable_payloads (fun _ => EmptyString)
                  (IndexTs_env 0 (Returned answer)) IndexTs_idle scrapeRequest answer
                  Hans eq_refl) payload eq_refl (or_introl eq_refl)).
Defined.

(** X16.  The scrape tool of the variant with the batch tool returns, with
    [isError = false], what the parsed body holds under [markdown] as it
    came: a string [markdown] is passed through untrimmed, even when empty.
    A body that does not parse gives "Error: " and the parser's message. *)
Theorem X16_single_scrape_passes_markdown_through
    (env : Part000.Env) (w : Part000.World) (request : Mcp.CallToolRequest)
    (response : Mcp.Response Part000.FireCrawlResponse) :
  Part000_scrapeAnswered env request w response ->
  Mcp.ok response = true ->
  let out := Part000.callTool env request w in
  (forall raw (markdown : string),
     Mcp.json response = Returned raw ->
     Js.get "markdown" raw = Js.JStr markdown ->
     returns out (Mcp.textResult markdown false)) /\
  (forall raw,
     Mcp.json response = Returned raw ->
     raw <> Js.JNull -> raw <> Js.JUndefined ->
     returns out (Mcp.uncheckedResult (Js.get "markdown" raw) false)) /\
  (forall message,
     Mcp.json response = Thrown message ->
     returns out (Mcp.textResult ("Error: " ++ message) true)).
Proof.
  intros Hans Hok out. subst out. unfold returns.
  rewrite (Part000_scrape_mapped env request w response Hans Hok).
  repeat split.
  - intros raw markdown Hjson Hmd. rewrite Hjson.
    destruct raw; cbn in Hmd; try discriminate Hmd.
    unfold Mcp.uncheckedResult, Mcp.textResult. cbn [Js.get]. rewrite Hmd. reflexivity.
  - intros raw Hjson Hnull Hundef. rewrite Hjson.
    destruct raw; try reflexivity; congruence.
  - intros message Hjson. rewrite Hjson. reflexivity.
Qed.

Lemma X16_single_scrape_passes_markdown_through_witness :
  let answer := okJson (rawPage "https://example.com" "  # Example ")
                  (page "https://example.com" "  # Example ") in
  returns (Part000.callTool (Part000_env 0 (Returned answer) offline)
             scrapeRequest Part000_idle)
    (Mcp.textResult "  # Example " false).
Proof.
  intros answer.
  assert (Hans : Part000_scrapeAnswered (Part000_env 0 (Returned answer) offline)
                   scrapeRequest Part000_idle answer) by (repeat split).
  exact (proj1 (X16_single_scrape_passes_markdown_through
                  (Part000_env 0 (Returned answer) offline) Part000_idle scrapeRequest
                  answer Hans eq_refl) _ "  # Example " eq_refl eq_refl).
Defined.

(** X17.  The text of a successful scrape of [index.ts] neither starts nor
    ends with white space.  Content that is white space only passes the
    emptiness test, which comes before the trimming, and is returned as a
    success with an empty text; content with no white space at either end
    is returned unchanged. *)
Theorem X17_scrape_text_is_trimmed
    (JSON_stringify : Js.value -> string)
    (env : IndexTs.Env) (w : IndexTs.World) (request : Mcp.CallToolRequest)
    (response : Mcp.Response IndexTs.ScrapeResponse)
    (payload : IndexTs.ScrapeResponse) (d : IndexTs.ScrapeData) (c : string) :
  IndexTs_scrapeAnswered env request w response ->
  Mcp.ok response = true ->
  Mcp.json_as response = Returned payload ->
  IndexTs.scrape_success payload = true ->
  IndexTs.data payload = Some d ->
  firstNonEmpty [IndexTs.markdown d; IndexTs.html d; IndexTs.rawHtml d] = Some c ->
  exists t,
    returns (IndexTs.callTool JSON_stringify env request w) (Mcp.textResult t false) /\
    startsWithSpace t = false /\
    endsWithSpace t = false /\
    (allSpace c = true -> t = "") /\
    (startsWithSpace c = false -> endsWithSpace c = false -> t = c).
Proof.
  intros Hans Hok Hjson Hs Hd Hc.
  exists (Js.trim c). split.
  - unfold returns.
    rewrite (IndexTs_scrape_mapped JSON_stringify env request w response payload d
               Hans Hok Hjson Hs Hd), Hc.
    reflexivity.
  - apply trim_spec.
Qed.

(** X17, an instance: a page whose markdown is two spaces and a line feed. *)
Lemma X17_scrape_text_is_trimmed_witness :
  let blank := String " " (String " " Mcp.LF) in
  returns (IndexTs.callTool (fun _ => EmptyString)
             (IndexTs_env 0 (Returned (scrapeAnswer (Some blank) None None)))
             scrapeRequest IndexTs_idle)
    (Mcp.textResult "" false).
Proof.
  intros blank.
  assert (Hans : IndexTs_scrapeAnswered
                   (IndexTs_env 0 (Returned (scrapeAnswer (Some blank) None None)))
                   scrapeRequest IndexTs_idle (scrapeAnswer (Some blank) None None))
    by (repeat split).
  destruct (X17_scrape_text_is_trimmed (fun _ => EmptyString)
              (IndexTs_env 0 (Returned (scrapeAnswer (Some blank) None None)))
              IndexTs_idle scrapeRequest (scrapeAnswer (Some blank) None None)
              {| IndexTs.scrape_success := true;
                 IndexTs.data := Some (scrapeData (Some blank) None None) |}
              (scrapeData (Some blank) None None) blank
              Hans eq_refl eq_refl eq_refl eq_refl eq_refl)
    as (t & Hr & _ & _ & Hall & _).
  rewrite (Hall eq_refl) in Hr. exact Hr.
Defined.

(** X18.  An HTTP failure of any status is reported the same way by every
    tool: the text is "Error: FireCrawl API error: ", the status, a space,
    the status text, a line feed and the body, which [index.ts] parses and
    writes back with [JSON.stringify] and the other variant reads as
    text. *)
Theorem X18_http_failures_of_every_tool
    (JSON_stringify : Js.value -> string)
    (envI : IndexTs.Env) (wI : IndexTs.World)
    (envP : Part000.Env) (wP : Part000.World)
    (request : Mcp.CallToolRequest)
    (scrapeI : Mcp.Response IndexTs.ScrapeResponse)
    (mapI : Mcp.Response IndexTs.MapResponse)
    (crawlI : Mcp.Response IndexTs.CrawlResponse)
    (scrapeP : Mcp.Response Part000.FireCrawlResponse)
    (batchP : Mcp.Response Part000.BatchResponse)
    (errorData : Js.value) (bodyText : string) :
  let report {P} (response : Mcp.Response P) (body : string) :=
    Mcp.textResult
      ("Error: FireCrawl API error: " ++ Js.number_to_string (Mcp.status response) ++
       " " ++ Mcp.statusText response ++ Mcp.LF ++ body) true in
  let outI := IndexTs.callTool JSON_stringify envI request wI in
  let outP := Part000.callTool envP request wP in
  (IndexTs_scrapeAnswered envI request wI scrapeI -> Mcp.ok scrapeI = false ->
   Mcp.json scrapeI = Returned errorData ->
   returns outI (report scrapeI (JSON_stringify errorData))) /\
  (IndexTs_mapAnswered envI request wI mapI -> Mcp.ok mapI = false ->
   Mcp.json mapI = Returned errorData ->
   returns outI (report mapI (JSON_stringify errorData))) /\
  (IndexTs_crawlAnswered envI request wI crawlI -> Mcp.ok crawlI = false ->
   Mcp.json crawlI = Returned errorData ->
   returns outI (report crawlI (JSON_stringify errorData))) /\
  (Part000_scrapeAnswered envP request wP scrapeP -> Mcp.ok scrapeP = false ->
   Mcp.text_body scrapeP = Returned bodyText ->
   returns outP (report scrapeP bodyText)) /\
  (Part000_batchAnswered envP request wP batchP -> Mcp.ok batchP = false ->
   Mcp.text_body batchP = Returned bodyText ->
   returns outP (report batchP bodyText)).
Proof.
  cbv zeta. unfold returns. repeat split; intros Hans Hok Hbody.
  - rewrite (IndexTs_scrape_http_failure JSON_stringify envI request wI scrapeI Hans Hok),
      Hbody. reflexivity.
  - rewrite (IndexTs_map_http_failure JSON_stringify envI request wI mapI Hans Hok),
      Hbody. reflexivity.
  - rewrite (IndexTs_crawl_http_failure JSON_stringify envI request wI crawlI Hans Hok),
      Hbody. reflexivity.
  - rewrite (Part000_scrape_http_failure envP request wP scrapeP Hans Hok), Hbody.
    reflexivity.
  - rewrite (Part000_batch_http_failure envP request wP batchP Hans Hok), Hbody.
    reflexivity.
Qed.

(** X18, an instance: the batch endpoint answers 503. *)
Lemma X18_http_failures_of_every_tool_witness :
  let unavailable : Mcp.Response Part000.BatchResponse :=
    {| Mcp.ok := false; Mcp.status := 503; Mcp.statusText := "Service Unavailable";
       Mcp.text_body := Returned "try later";
       Mcp.json := Thrown "Unexpected token t in JSON at position 0";
       Mcp.json_as := Thrown "Unexpected token t in JSON at position 0" |} in
  returns (Part000.callTool (Part000_env 0 offline (Returned unavailable))
             batchRequest Part000_idle)
    (Mcp.textResult
       ("Error: FireCrawl API error: 503 Service Unavailable" ++ Mcp.LF ++ "try later")
       true).
Proof.
  intros unavailable.
  assert (Hans : Part000_batchAnswered (Part000_env 0 offline (Returned unavailable))
                   batchRequest Part000_idle unavailable) by (repeat split).
  exact (proj2 (proj2 (proj2 (proj2
           (X18_http_failures_of_every_tool (fun _ => EmptyString)
              (IndexTs_env 0 offline) IndexTs_idle
              (Part000_env 0 offline (Returned unavailable)) Part000_idle
              batchRequest badRequest badRequest badRequest badRequest unavailable
              Js.JNull "try later"))))
           Hans eq_refl eq_refl).
Defined.

(** X19.  A batch answer without results, whatever its list of failed URLs,
    is returned as a success with an empty text. *)
Theorem X19_batch_without_results_is_an_empty_success
    (env : Part000.Env) (w : Part000.World) (request : Mcp.CallToolRequest)
    (response : Mcp.Response Part000.BatchResponse) (failed : list string) :
  Part000_batchAnswered env request w response ->
  Mcp.ok response = true ->
  Mcp.json_as response = Returned {| Part000.results := []; Part000.failed := failed |} ->
  returns (Part000.callTool env request w) (Mcp.textResult "" false).
Proof.
  intros Hans Hok Hjson. unfold returns.
  rewrite (Part000_batch_mapped env request w response _ Hans Hok Hjson).
  reflexivity.
Qed.

Lemma X19_batch_without_results_is_an_empty_success_witness :
  let answer :=
    okJson (Js.JObj [("results", Js.JArr []);
                     ("failed", Js.JArr [Js.JStr "https://example1.com";
                                         Js.JStr "https://example2.com"])])
      {| Part000.results := [];
         Part000.failed := ["https://example1.com"; "https://example2.com"] |} in
  returns (Part000.callTool (Part000_env 0 offline (Returned answer))
             batchRequest Part000_idle)
    (Mcp.textResult "" false).
Proof.
  intros answer.
  assert (Hans : Part000_batchAnswered (Part000_env 0 offline (Returned answer))
                   batchRequest Part000_idle answer) by (repeat split).
  exact (X19_batch_without_results_is_an_empty_success
           (Part000_env 0 offline (Returned answer)) Part000_idle batchRequest answer
           ["https://example1.com"; "https://example2.com"] Hans eq_refl eq_refl).
Defined.

(* ================================================================== *)
(** ** The limiter seen from the network *)
(* ================================================================== *)

Section Serving.

Import Mcp.

Variable JSON_stringify : Js.value -> string.

Lemma posts_snoc (log : list FetchCall) (call : FetchCall) :
  posts (log ++ [call]) = posts log + 1.
Proof.
  unfold posts. rewrite length_app; cbn [List.length]. lia.
Qed.

(** Serving a sequence of calls runs the limiter once for each call that
    passes validation, and logs one POST for each call it admits. *)
Lemma Part000_serve_runs_limiter (calls : list (Part000.Env * CallToolRequest)) :
  forall w : Part000.World,
    let run := runCalls Part000.checkRateLimit (Part000_checkedAt calls)
                 (Part000.rateLimits w) in
    Part000.rateLimits (Part000_serve calls w) = snd run /\
    posts (Part000.fetched (Part000_serve calls w)) =
      posts (Part000.fetched w) + admissions (fst run).
Proof.
  induction calls as [|[env request] calls IH]; intros w; cbv zeta.
  - cbn. unfold admissions; cbn. split; [reflexivity | lia].
  - cbn [Part000_serve].
    destruct (Part000_effect env request w) as [Hl Hf].
    specialize (IH (snd (Part000.callTool env request w))). cbv zeta in IH.
    destruct IH as [IHl IHf]. rewrite IHl, IHf, Hl, Hf.
    unfold Part000_checkedAt. cbn [filter snd fst].
    destruct (Part000_accepted request); cbn [andb map fst].
    + rewrite runCalls_cons; cbn [fst snd]. rewrite admissions_cons.
      split; [reflexivity|].
      destruct (admitted (Part000.checkRateLimit (Part000.now env)
                            (Part000.rateLimits w)));
        rewrite ?posts_snoc; lia.
    + split; reflexivity.
Qed.

Lemma IndexTs_serve_runs_limiter (calls : list (IndexTs.Env * CallToolRequest)) :
  forall w : IndexTs.World,
    let run := runCalls IndexTs.checkRateLimit (IndexTs_checkedAt calls)
                 (IndexTs.requestCount w) in
    IndexTs.requestCount (IndexTs_serve JSON_stringify calls w) = snd run /\
    posts (IndexTs.fetched (IndexTs_serve JSON_stringify calls w)) =
      posts (IndexTs.fetched w) + admissions (fst run).
Proof.
  induction calls as [|[env request] calls IH]; intros w; cbv zeta.
  - cbn. unfold admissions; cbn. split; [reflexivity | lia].
  - cbn [IndexTs_serve].
    destruct (IndexTs_effect JSON_stringify env request w) as [Hl Hf].
    specialize (IH (snd (IndexTs.callTool JSON_stringify env request w))).
    cbv zeta in IH.
    destruct IH as [IHl IHf]. rewrite IHl, IHf, Hl, Hf.
    unfold IndexTs_checkedAt. cbn [filter snd fst].
    destruct (IndexTs_accepted request); cbn [andb map fst].
    + rewrite runCalls_cons; cbn [fst snd]. rewrite admissions_cons.
      split; [reflexivity|].
      destruct (admitted (IndexTs.checkRateLimit (IndexTs.now env)
                            (IndexTs.requestCount w)));
        rewrite ?posts_snoc; lia.
    + split; reflexivity.
Qed.

Lemma Part000_checkedAt_in (calls : list (Part000.Env * CallToolRequest)) (t : Z) :
  In t (Part000_checkedAt calls) ->
  exists c, In c calls /\ t = Part000.now (fst c).
Proof.
  unfold Part000_checkedAt. intros H.
  apply in_map_iff in H as (c & Ht & Hc).
  apply filter_In in Hc as [Hc _]. exists c. split; [exact Hc | now symmetry].
Qed.

End Serving.

(** X20.  Seen from the network, the variant with one timestamp per window
    sends at most 4 requests in any span of 1000 ms and at most 120 in any
    span of 60000 ms: whatever the requests are and however the network
    answers, serving calls whose clock readings lie in such a span adds no
    more POSTs to the log, when the counters start in bounds. *)
Theorem X20_posts_in_any_span_are_bounded
    (a : Z) (calls : list (Part000.Env * Mcp.CallToolRequest)) (w : Part000.World) :
  Part000_inBounds (Part000.rateLimits w) ->
  ((forall c, In c calls -> a <= Part000.now (fst c) <= a + 1000) ->
   posts (Part000.fetched (Part000_serve calls w)) <= posts (Part000.fetched w) + 4) /\
  ((forall c, In c calls -> a <= Part000.now (fst c) <= a + 60000) ->
   posts (Part000.fetched (Part000_serve calls w)) <= posts (Part000.fetched w) + 120).
Proof.
  intros [[Hs0 Hs2] [Hm0 Hm60]].
  destruct (Part000_serve_runs_limiter calls w) as [_ Hp]. rewrite Hp.
  split; intros Hin.
  - assert (Hb := Part000_second_span a (Part000_checkedAt calls) (Part000.rateLimits w) Hs2).
    assert (Ht : forall t, In t (Part000_checkedAt calls) -> a <= t <= a + 1000).
    { intros t Ht. apply Part000_checkedAt_in in Ht as (c & Hc & ->). apply Hin, Hc. }
    specialize (Hb Ht). lia.
  - assert (Hb := Part000_minute_span a (Part000_checkedAt calls) (Part000.rateLimits w) Hm60).
    assert (Ht : forall t, In t (Part000_checkedAt calls) -> a <= t <= a + 60000).
    { intros t Ht. apply Part000_checkedAt_in in Ht as (c & Hc & ->). apply Hin, Hc. }
    specialize (Hb Ht). lia.
Qed.

(** X20, an instance: five scrape calls in the first millisecond after
    start-up while the network is down. *)
Lemma X20_posts_in_any_span_are_bounded_witness :
  let call := (Part000_env 0 offline offline, scrapeRequest) in
  posts (Part000.fetched (Part000_serve [call; call; call; call; call] Part000_idle)) <= 4.
Proof.
  intros call.
  assert (Hb : Part000_inBounds (Part000.rateLimits Part000_idle))
    by (unfold Part000_inBounds; cbn; lia).
  apply (proj1 (X20_posts_in_any_span_are_bounded 0 [call; call; call; call; call]
                  Part000_idle Hb)).
  intros c Hc. cbn in Hc.
  repeat (destruct Hc as [Hc|Hc]; [subst c; cbn; lia|]). destruct Hc.
Defined.

(** X21.  Seen from the network, [index.ts] sends at most sixty requests in
    the life of the process: from the start-up state, whatever the calls
    are, whenever they come and however the network answers, the log never
    holds more than 60 POSTs, and their number is the minute counter. *)
Theorem X21_index_ts_sends_sixty_posts_in_all
    (JSON_stringify : Js.value -> string)
    (calls : list (IndexTs.Env * Mcp.CallToolRequest)) :
  let w := IndexTs_serve JSON_stringify calls IndexTs_idle in
  posts (IndexTs.fetched w) = IndexTs.minute (IndexTs.requestCount w) /\
  posts (IndexTs.fetched w) <= 60.
Proof.
  cbv zeta.
  destruct (IndexTs_serve_runs_limiter JSON_stringify calls IndexTs_idle) as [Hl Hp].
  rewrite Hl, Hp.
  pose proof (IndexTs_minute_counts_admissions (IndexTs_checkedAt calls)
                (IndexTs.requestCount IndexTs_idle)) as Hc.
  assert (Hb : IndexTs_inBounds (IndexTs.requestCount IndexTs_idle))
    by (unfold IndexTs_inBounds; cbn; lia).
  apply (runCalls_invariant IndexTs.checkRateLimit IndexTs_inBounds
           (fun t s => IndexTs_inBounds_step t s) (IndexTs_checkedAt calls)) in Hb.
  destruct Hb as [_ Hm].
  cbn [IndexTs_idle IndexTs.requestCount IndexTs.fetched IndexTs.minute] in *.
  unfold posts at 1 2; cbn [List.length Z.of_nat]. lia.
Qed.
